(** * poll-site: column detection, cell normalisation and the per-row loop

    A shallow embedding of [script2.py] (and of the older [script.py]) and the
    properties of their column resolver, value normalisers, row loop and
    output-path selection.

    Python [str] values are sequences of Unicode code points; they are
    modelled as [list N].  The parts of the Python runtime that are tables
    or engines of their own (the decimal-digit class behind [\d], the case
    mappings, the regular-expression engine used on the header patterns)
    are an interface, [PyRuntime], whose laws are the only facts the proofs
    use about them. *)

From Stdlib Require Import String Ascii ZArith NArith Lia.
From Stdlib Require Import DecimalNat DecimalN DecimalZ DecimalFacts DecimalPos.
From Stdlib Require Import Sorted Permutation.
From stdpp Require Import base list numbers gmap sets.

Open Scope N_scope.

(** ** Strings as code points *)

Abbreviation str := (list N).

Fixpoint bytes_of (s : string) : list N :=
  match s with
  | EmptyString => []
  | String a r => N_of_ascii a :: bytes_of r
  end.

(** UTF-8 decoding of a source literal into its code points. *)
Fixpoint utf8 (l : list N) : str :=
  match l with
  | [] => []
  | b :: r =>
      if b <? 128 then b :: utf8 r
      else if b <? 224 then
        match r with
        | b1 :: r' => ((b - 192) * 64 + (b1 - 128)) :: utf8 r'
        | _ => []
        end
      else if b <? 240 then
        match r with
        | b1 :: b2 :: r' =>
            ((b - 224) * 4096 + (b1 - 128) * 64 + (b2 - 128)) :: utf8 r'
        | _ => []
        end
      else
        match r with
        | b1 :: b2 :: b3 :: r' =>
            ((b - 240) * 262144 + (b1 - 128) * 4096 + (b2 - 128) * 64
             + (b3 - 128)) :: utf8 r'
        | _ => []
        end
  end.

(** [u "..."] is the Python string written as the literal. *)
Definition u (s : string) : str := utf8 (bytes_of s).

Definition str_eqb (a b : str) : bool := bool_decide (a = b).

(** ** Whitespace: [str.strip()] and the class [\s] of [re] on [str]

    Both use the same predicate of the interpreter (the characters for
    which [str.isspace] holds). *)
Definition isspace (c : N) : bool :=
  ((9 <=? c) && (c <=? 13)) || ((28 <=? c) && (c <=? 32))
  || (c =? 133) || (c =? 160) || (c =? 5760)
  || ((8192 <=? c) && (c <=? 8202))
  || (c =? 8232) || (c =? 8233) || (c =? 8239) || (c =? 8287)
  || (c =? 12288).

Fixpoint lstrip (s : str) : str :=
  match s with
  | [] => []
  | c :: r => if isspace c then lstrip r else s
  end.

Definition rstrip (s : str) : str := rev (lstrip (rev s)).

(** [s.strip()] *)
Definition strip (s : str) : str := rstrip (lstrip s).

(** [re.sub(r"\s+", " ", s)]: every maximal run of whitespace becomes one
    space.  [in_run] says that the previous character was whitespace. *)
Fixpoint sub_ws (in_run : bool) (s : str) : str :=
  match s with
  | [] => []
  | c :: r =>
      if isspace c
      then (if in_run then sub_ws true r else 32 :: sub_ws true r)
      else c :: sub_ws false r
  end.

Definition collapse_ws (s : str) : str := sub_ws false s.

(** [s.startswith(p)] *)
Fixpoint is_prefix (p s : str) : bool :=
  match p, s with
  | [], _ => true
  | a :: p', b :: s' => (a =? b) && is_prefix p' s'
  | _ :: _, [] => false
  end.

(** [s.endswith(suf)] *)
Definition endswith (suf s : str) : bool := is_prefix (rev suf) (rev s).

(** [re.sub(r"\.0$", "", s)].  Without [re.MULTILINE], [$] matches at the
    end of the string and also just before a newline that ends it; the
    two ways exclude each other, so at most one match is replaced. *)
Definition sub_dot0 (s : str) : str :=
  if endswith [46; 48] s then take (length s - 2) s
  else if endswith [46; 48; 10] s then take (length s - 3) s ++ [10]
  else s.

(** [s.zfill(width)] *)
Definition zfill (width : nat) (s : str) : str :=
  if (width <=? length s)%nat then s
  else
    let fill := replicate (width - length s) 48 in
    match s with
    | c :: r => if (c =? 43) || (c =? 45) then c :: fill ++ r else fill ++ s
    | [] => fill
    end.

(** ** Decimal text of integers: [str(n)] *)
Fixpoint str_of_uint (d : Decimal.uint) : str :=
  match d with
  | Decimal.Nil => []
  | Decimal.D0 r => 48 :: str_of_uint r
  | Decimal.D1 r => 49 :: str_of_uint r
  | Decimal.D2 r => 50 :: str_of_uint r
  | Decimal.D3 r => 51 :: str_of_uint r
  | Decimal.D4 r => 52 :: str_of_uint r
  | Decimal.D5 r => 53 :: str_of_uint r
  | Decimal.D6 r => 54 :: str_of_uint r
  | Decimal.D7 r => 55 :: str_of_uint r
  | Decimal.D8 r => 56 :: str_of_uint r
  | Decimal.D9 r => 57 :: str_of_uint r
  end.

Definition str_of_N (n : N) : str := str_of_uint (N.to_uint n).

Definition str_of_Z (z : Z) : str :=
  match z with
  | Z0 => [48]
  | Zpos p => str_of_N (Npos p)
  | Zneg p => 45 :: str_of_N (Npos p)
  end.

(** ** The runtime interface *)
Class PyRuntime := {
  (** the class [\d] of [re] on [str]: Unicode decimal digits *)
  isdecimal : N -> bool;
  (** the full upper-case mapping of one character, as [str.upper] applies it *)
  toupper : N -> str;
  (** [str.lower] *)
  str_lower : str -> str;
  (** [re.search(pattern, text) is not None] *)
  re_search : str -> str -> bool;
  isdecimal_ascii :
    forall c, c < 128 -> isdecimal c = (48 <=? c) && (c <=? 57);
  isdecimal_isspace : forall c, isdecimal c = true -> isspace c = false;
  toupper_isspace : forall c, isspace c = true -> toupper c = [c];
  toupper_nonspace :
    forall c, isspace c = false ->
      toupper c <> [] /\ Forall (fun d => isspace d = false) (toupper c);
  toupper_stable : forall c d, In d (toupper c) -> toupper d = [d];
  str_lower_nil : str_lower [] = [];
  str_lower_cons : forall c s, str_lower (c :: s) <> []
}.

(** The tables cut down to ASCII: every law of the interface holds of them. *)
Definition ascii_isdecimal (c : N) : bool := (48 <=? c) && (c <=? 57).
Definition ascii_toupper (c : N) : str :=
  if (97 <=? c) && (c <=? 122) then [c - 32] else [c].
Definition ascii_tolower (c : N) : N :=
  if (65 <=? c) && (c <=? 90) then c + 32 else c.

(** Literal substring search, standing for a pattern without operators. *)
Fixpoint contains (p s : str) : bool :=
  is_prefix p s ||
  match s with
  | [] => false
  | _ :: s' => contains p s'
  end.

(** ** Cell values *)

(** What a spreadsheet cell can hold when it reaches the script.  A float is
    carried by what the script asks of it: [as_int] is [Some (int(x))] when
    [x.is_integer()], and [repr] is its default text [str(x)]. *)
Inductive Cell :=
| CNone
| CNaN
| CInt (z : Z)
| CFloat (as_int : option Z) (repr : str)
| CStr (s : str).

(** [safe_text] *)
Definition safe_text (x : Cell) : str :=
  match x with
  | CNone => []
  | CNaN => []
  | CInt z => str_of_Z z
  | CFloat (Some z) _ => str_of_Z z
  | CFloat None r => r
  | CStr s => s
  end.

Section Normalizers.
Context `{PyRuntime}.

(** [s.upper()] *)
Definition str_upper (s : str) : str := flat_map toupper s.

(** [re.sub(r"[^\d]", "", s)] *)
Definition keep_digits (s : str) : str := List.filter isdecimal s.

(** [clean_house] *)
Definition clean_house (x : Cell) : str :=
  let s := strip (safe_text x) in
  let s := sub_dot0 s in
  let s := collapse_ws s in
  s.

(** [clean_street] *)
Definition clean_street (x : Cell) : str :=
  let s := str_upper (strip (safe_text x)) in
  let s := collapse_ws s in
  s.

(** [clean_zip] *)
Definition clean_zip (x : Cell) : str :=
  let s := strip (safe_text x) in
  let s := keep_digits s in
  let s := if (length s =? 4)%nat then zfill 5 s else s in
  let s := if (5 <=? length s)%nat then take 5 s else s in
  s.
End Normalizers.

(** ** What the specification says the normalisers compute *)

(** Remove one literal trailing [".0"], if there is one. *)
Definition strip_suffix_dot0 (s : str) : str :=
  if endswith [46; 48] s then take (length s - 2) s else s.

Section NormalizerSpecs.
Context `{PyRuntime}.

(** text, trim, collapse, then drop a trailing [".0"] *)
Definition clean_house_spec (x : Cell) : str :=
  strip_suffix_dot0 (collapse_ws (strip (safe_text x))).

(** text, digits only, pad four digits to five, cut to five *)
Definition clean_zip_spec (x : Cell) : str :=
  let d := keep_digits (safe_text x) in
  if (length d =? 4)%nat then 48 :: d
  else if (5 <=? length d)%nat then take 5 d
  else d.
End NormalizerSpecs.


(** ** Column resolver *)

Inductive Field := House | Street | Zip.

(** [EXACT_NAMES] *)
Definition EXACT_NAMES (f : Field) : list str :=
  match f with
  | House =>
      [u "HOUSE #"; u "HOUSE#"; u "HOUSE NUMBER"; u "HOUSE NO"; u "HOUSE NO.";
       u "House Number (ex: 3514) / 门牌号码"; u "House Number / 门牌号码";
       u "House Number / 门牌号"]
  | Street =>
      [u "STREET NAME"; u "STREET";
       u "Street Name (ex: 19Th Ave) / 街道名称"]
  | Zip =>
      [u "ZIP CODE";
       u "Zip Code (Ex: 11204) / 邮政编码"]
  end.

(** [REQUIRED_PATTERNS]: the sources of the regular expressions, in
    priority order. *)
Definition REQUIRED_PATTERNS (f : Field) : list str :=
  match f with
  | House =>
      [u "\bhouse\s*number\b"; u "\bhouse\s*#(?:\s|$)"; u "\bhouse\s*no\.?\b";
       u "门牌(号|号码)"]
  | Street =>
      [u "\bstreet\s*name\b"; u "\bstreet\b"; u "\bst\.?\b";
       u "街道名称"; u "街道"]
  | Zip =>
      [u "\bzip\s*code\b"; u "\bzip\b"; u "\bpostal\s*code\b";
       u "邮政编码"]
  end.

(** Does a [")"] follow before any newline?  ([.] does not match a
    newline.) *)
Fixpoint closes (s : str) : bool :=
  match s with
  | [] => false
  | c :: r => if c =? 41 then true else if c =? 10 then false else closes r
  end.

(** [re.sub(r"\(.*?\)", "", s)]: from each ["("] that is closed on its
    line, everything up to the first [")"] goes.  [skipping] says that
    such a group is being dropped. *)
Fixpoint sub_parens (skipping : bool) (s : str) : str :=
  match s with
  | [] => []
  | c :: r =>
      if skipping then (if c =? 41 then sub_parens false r else sub_parens true r)
      else if (c =? 40) && closes r then sub_parens true r
      else c :: sub_parens false r
  end.

(** [s.replace("/", " ")] *)
Definition replace_slash (s : str) : str :=
  map (fun c => if c =? 47 then 32 else c) s.

(** Lexicographic [<] on the keys [(rank, -len(c))]. *)
Definition key_ltb (a b : nat * Z) : bool :=
  (a.1 <? b.1)%nat || ((a.1 =? b.1)%nat && (a.2 <? b.2)%Z).

(** [a or b] on values that are [None] or a string: [None] and the empty
    string are false. *)
Definition py_or (a b : option str) : option str :=
  match a with
  | Some (_ :: _) => a
  | _ => b
  end.

Section Resolver.
Context `{PyRuntime}.

(** [norm_keep_symbols] *)
Definition norm_keep_symbols (s : str) : str :=
  let s := str_lower (strip (collapse_ws s)) in
  let s := sub_parens false s in
  let s := replace_slash s in
  s.

(** [n.strip().lower()] *)
Definition norm_exact (s : str) : str := str_lower (strip s).

(** [find_exact], on the column headers of the frame *)
Fixpoint find_exact (columns names : list str) : option str :=
  match columns with
  | [] => None
  | col :: rest =>
      if bool_decide (norm_exact col ∈ map norm_exact names)
      then Some col
      else find_exact rest names
  end.

(** The inner loop of [find_regex]: the rank of the first pattern that
    matches [c], counting from [rank]. *)
Fixpoint first_match (patterns : list str) (c : str) (rank : nat) : option nat :=
  match patterns with
  | [] => None
  | pat :: rest =>
      if re_search pat c then Some rank else first_match rest c (S rank)
  end.

(** One turn of the outer loop of [find_regex] on [best]. *)
Definition regex_step (patterns : list str)
    (best : option ((nat * Z) * str)) (col : str) : option ((nat * Z) * str) :=
  let c := norm_keep_symbols col in
  match first_match patterns c 0 with
  | None => best
  | Some rank =>
      let k := (rank, (- Z.of_nat (length c))%Z) in
      match best with
      | None => Some (k, col)
      | Some (kb, _) => if key_ltb k kb then Some (k, col) else best
      end
  end.

(** [find_regex] *)
Definition find_regex (columns patterns : list str) : option str :=
  match fold_left (regex_step patterns) columns None with
  | None => None
  | Some best => Some best.2
  end.

(** [find_exact(df, EXACT_NAMES[f]) or find_regex(df, REQUIRED_PATTERNS[f])] *)
Definition resolve (f : Field) (columns : list str) : option str :=
  py_or (find_exact columns (EXACT_NAMES f))
        (find_regex columns (REQUIRED_PATTERNS f)).
End Resolver.

(** ** The site driver, as the row loop sees it *)

(** The result page.  [div_message] is the text of the first element with
    id [divMessage], if there is one; [element_text id] is the text of the
    element with that id, or [None] when looking it up fails. *)
Record Page := {
  div_message : option str;
  element_text : str -> option str
}.

(** What the browser session answers for one submitted address: an
    exception anywhere between loading the form and reading the message
    element, or a page. *)
Inductive SiteResult :=
| Fault (e : str)
| Loaded (p : Page).

(** The driver: house number, street name and zip code typed into the
    form, and what comes back. *)
Definition Lookup := str -> str -> str -> SiteResult.

(** [safe_get_text(driver, By.ID, value)], with its default fallback [""];
    both scripts compute the same text. *)
Definition safe_get_text (p : Page) (value : str) : str :=
  match element_text p value with
  | Some t => strip t
  | None => []
  end.

(** [s.split("/")[0]] *)
Fixpoint before_slash (s : str) : str :=
  match s with
  | [] => []
  | c :: r => if c =? 47 then [] else c :: before_slash r
  end.

(** [OUTPUT_COLS] *)
Definition OUTPUT_COLS : list str :=
  [u "AD"; u "ED"; u "Cong D"; u "SD"; u "Council D"; u "JD"].

(** [site_data]: a dict, here its items in insertion order. *)
Definition site_data (p : Page) : list (str * str) :=
  [ (u "AD", safe_get_text p (u "assembly_district"));
    (u "ED", before_slash (safe_get_text p (u "election_district")));
    (u "Cong D", safe_get_text p (u "congress_district"));
    (u "SD", safe_get_text p (u "senate_district"));
    (u "Council D", safe_get_text p (u "council_district"));
    (u "JD", safe_get_text p (u "judicial_district")) ].

(** The six texts as scraped, before [site_data] is built from them. *)
Definition scraped (p : Page) : list str :=
  map (safe_get_text p)
      [u "assembly_district"; u "election_district"; u "congress_district";
       u "senate_district"; u "council_district"; u "judicial_district"].

(** [all(not v for v in site_data.values())] *)
Definition no_data (sd : list (str * str)) : bool :=
  forallb (fun kv => bool_decide (kv.2 = [])) sd.

(** The page shows a message: [error_msg_element and
    error_msg_element[0].text.strip()].  The value is the stripped text. *)
Definition error_text (p : Page) : option str :=
  match div_message p with
  | Some t => match strip t with [] => None | m => Some m end
  | None => None
  end.

(** ** Rows and the invalid-row list *)

(** A row of the frame: cells by column header. *)
Abbreviation Row := (gmap str Cell).

(** An entry of [invalid_rows]. *)
Record InvalidRow := {
  ir_row : nat;
  ir_house : str;
  ir_street : str;
  ir_zip : str;
  ir_reason : str
}.

(** What one turn of the row loop does: the row of the frame afterwards,
    the entries appended to [invalid_rows], and the columns assigned with
    [df.at[index, field] = site_val], in order. *)
Record Outcome := {
  row_after : Row;
  appended : list InvalidRow;
  mutated : list str
}.

Definition unchanged (row : Row) (entries : list InvalidRow) : Outcome :=
  {| row_after := row; appended := entries; mutated := [] |}.

(** [not all([house_number, street_name, zip_code])] *)
Definition missing_address (house street zip : str) : bool :=
  bool_decide (house = []) || bool_decide (street = []) || bool_decide (zip = []).

(** [str(x)] of a cell *)
Definition py_str (x : Cell) : str :=
  match x with
  | CNone => u "None"
  | CNaN => u "nan"
  | CInt z => str_of_Z z
  | CFloat _ r => r
  | CStr s => s
  end.

(** [pd.notna(x)] *)
Definition notna (x : Cell) : bool :=
  match x with
  | CNone | CNaN => false
  | _ => true
  end.

(** *** [script2.py] *)
Module Script2.
Section Loop.
Context `{PyRuntime}.
(** the headers found by the column resolver *)
Variables house_col street_col zip_col : str.
Variable lookup : Lookup.

(** "Ensure output columns exist": [df[col] = ""] for each missing one. *)
Definition ensure_output_cols (row : Row) : Row :=
  fold_left (fun r col => match r !! col with
                          | Some _ => r
                          | None => <[col := CStr []]> r
                          end) OUTPUT_COLS row.

(** [row.get(col, "")] *)
Definition get (row : Row) (col : str) : Cell := default (CStr []) (row !! col).

(** One turn of "Update output columns"; [row] is the row as read by
    [iterrows], [acc] the frame's row and the columns assigned so far. *)
Definition update_step (row : Row) (acc : Row * list str) (item : str * str)
    : Row * list str :=
  let '(field, site_val) := item in
  let excel_val := strip (safe_text (get row field)) in
  if bool_decide (excel_val = site_val) then acc
  else (<[field := CStr site_val]> acc.1, acc.2 ++ [field]).

(** The body of [for index, row in df.iterrows()]. *)
Definition process_row (index : nat) (row : Row) : Outcome :=
  let house_number := clean_house (get row house_col) in
  let street_name := clean_street (get row street_col) in
  let zip_code := clean_zip (get row zip_col) in
  let entry reason :=
    {| ir_row := index; ir_house := house_number; ir_street := street_name;
       ir_zip := zip_code; ir_reason := reason |} in
  if missing_address house_number street_name zip_code then unchanged row []
  else
    match lookup house_number street_name zip_code with
    | Fault e => unchanged row [entry (u "Script error: " ++ e)]
    | Loaded p =>
        match error_text p with
        | Some msg => unchanged row [entry msg]
        | None =>
            let sd := site_data p in
            if no_data sd then unchanged row [entry (u "No polling info returned")]
            else
              let acc := fold_left (update_step row) sd (row, []) in
              {| row_after := acc.1; appended := []; mutated := acc.2 |}
        end
    end.

(** The whole loop over the frame, from row [index] on. *)
Fixpoint process_rows (index : nat) (rows : list Row)
    (invalid_rows : list InvalidRow) : list Row * list InvalidRow :=
  match rows with
  | [] => ([], invalid_rows)
  | row :: rest =>
      let o := process_row index row in
      let '(rest', inv) := process_rows (S index) rest (invalid_rows ++ appended o) in
      (row_after o :: rest', inv)
  end.

(** All six scraped values equal the row's own, so nothing is assigned. *)
Definition all_match (row : Row) (p : Page) : bool :=
  forallb (fun item : str * str =>
             bool_decide (strip (safe_text (get row item.1)) = item.2))
          (site_data p).
End Loop.
End Script2.

(** *** [script.py] *)
Module Script.
Section Loop.
Variable lookup : Lookup.

(** [str(row[field]).zfill(len(site_val)) if pd.notna(row[field]) else ""] *)
Definition excel_val (cell : Cell) (site_val : str) : str :=
  if notna cell then zfill (length site_val) (py_str cell) else [].

(** One turn of "Compare and update values".  [row[field]] raises
    [KeyError] when the frame has no such column; the loop then stops
    with what it has assigned so far, and the error goes to the handler. *)
Fixpoint update_loop (row : Row) (items : list (str * str))
    (acc : Row * list str) : (Row * list str) * option str :=
  match items with
  | [] => (acc, None)
  | (field, site_val) :: rest =>
      match row !! field with
      | None => (acc, Some (u "'" ++ field ++ u "'"))
      | Some cell =>
          if bool_decide (excel_val cell site_val = site_val)
          then update_loop row rest acc
          else update_loop row rest
                 (<[field := CStr site_val]> acc.1, acc.2 ++ [field])
      end
  end.

(** The body of [for index, row in df.iterrows()].  The three address
    columns have fixed headers; a frame without one of them makes the
    handler itself fail on names that were never bound, at the first row,
    and the run stops: [None]. *)
Definition process_row (index : nat) (row : Row) : option Outcome :=
  match row !! u "HOUSE #", row !! u "STREET NAME", row !! u "ZIP CODE" with
  | Some h, Some s, Some z =>
      let house_number := strip (py_str h) in
      let street_name := strip (py_str s) in
      let zip_code := strip (py_str z) in
      let entry reason :=
        {| ir_row := index; ir_house := house_number; ir_street := street_name;
           ir_zip := zip_code; ir_reason := reason |} in
      Some
        (if missing_address house_number street_name zip_code
         then unchanged row []
         else
           match lookup house_number street_name zip_code with
           | Fault e => unchanged row [entry (u "Script error: " ++ e)]
           | Loaded p =>
               match error_text p with
               | Some msg => unchanged row [entry msg]
               | None =>
                   let sd := site_data p in
                   if no_data sd
                   then unchanged row [entry (u "No polling info returned")]
                   else
                     match update_loop row sd (row, []) with
                     | (acc, None) =>
                         {| row_after := acc.1; appended := []; mutated := acc.2 |}
                     | (acc, Some e) =>
                         {| row_after := acc.1;
                            appended := [entry (u "Script error: " ++ e)];
                            mutated := acc.2 |}
                     end
               end
           end)
  | _, _, _ => None
  end.

Definition all_match (row : Row) (p : Page) : bool :=
  forallb (fun item : str * str =>
             match row !! item.1 with
             | Some cell => bool_decide (excel_val cell item.2 = item.2)
             | None => false
             end)
          (site_data p).
End Loop.
End Script.

(** ** How a turn of the row loop can end *)

Definition count_true (l : list bool) : nat := length (List.filter id l).

(** (a) at least one output field was assigned *)
Definition outcome_mutation (o : Outcome) : bool :=
  bool_decide (mutated o <> []).

(** (b) nothing assigned and nothing recorded, all six fields having been
    compared with the scraped values and found equal ([matched]) *)
Definition outcome_all_match (matched : bool) (o : Outcome) : bool :=
  bool_decide (mutated o = []) && bool_decide (appended o = []) && matched.

(** (c) exactly one entry appended to [invalid_rows] *)
Definition outcome_one_entry (o : Outcome) : bool :=
  bool_decide (length (appended o) = 1%nat).

(** (d) the row was skipped for missing address data ([skipped]): nothing
    assigned, nothing recorded, the site not consulted *)
Definition outcome_skipped (skipped : bool) (o : Outcome) : bool :=
  bool_decide (mutated o = []) && bool_decide (appended o = []) && skipped.

(** [d[k]] on the items of a dict *)
Fixpoint dict_get (d : list (str * str)) (k : str) : option str :=
  match d with
  | [] => None
  | (k', v) :: rest => if bool_decide (k' = k) then Some v else dict_get rest k
  end.

Section Script2Verdicts.
Context `{PyRuntime}.
Variables house_col street_col zip_col : str.
Variable lookup : Lookup.

(** The address typed into the form for [row]. *)
Definition address2 (row : Row) : str * str * str :=
  (clean_house (Script2.get row house_col),
   clean_street (Script2.get row street_col),
   clean_zip (Script2.get row zip_col)).

Definition skipped2 (row : Row) : bool :=
  let '(h, s, z) := address2 row in missing_address h s z.

Definition site_result2 (row : Row) : SiteResult :=
  let '(h, s, z) := address2 row in lookup h s z.

(** The row reached the comparison and every field was equal. *)
Definition matched2 (row : Row) : bool :=
  negb (skipped2 row) &&
  match site_result2 row with
  | Loaded p =>
      match error_text p with
      | None => Script2.all_match row p
      | Some _ => false
      end
  | Fault _ => false
  end.

(** The row reached the scraping of page [p]. *)
Definition scrapes2 (row : Row) (p : Page) : Prop :=
  skipped2 row = false /\ site_result2 row = Loaded p /\ error_text p = None.
End Script2Verdicts.

Section Script1Verdicts.
Variable lookup : Lookup.

Definition address1 (row : Row) : option (str * str * str) :=
  match row !! u "HOUSE #", row !! u "STREET NAME", row !! u "ZIP CODE" with
  | Some h, Some s, Some z =>
      Some (strip (py_str h), strip (py_str s), strip (py_str z))
  | _, _, _ => None
  end.

Definition skipped1 (row : Row) : bool :=
  match address1 row with
  | Some (h, s, z) => missing_address h s z
  | None => false
  end.

Definition site_result1 (row : Row) : option SiteResult :=
  match address1 row with
  | Some (h, s, z) => Some (lookup h s z)
  | None => None
  end.

Definition matched1 (row : Row) : bool :=
  negb (skipped1 row) &&
  match site_result1 row with
  | Some (Loaded p) =>
      match error_text p with
      | None => Script.all_match row p
      | Some _ => false
      end
  | _ => false
  end.

Definition scrapes1 (row : Row) (p : Page) : Prop :=
  skipped1 row = false /\ site_result1 row = Some (Loaded p) /\ error_text p = None.
End Script1Verdicts.

(** The frame has the columns that [script.py] reads by name. *)
Definition has_columns (cols : list str) (row : Row) : Prop :=
  Forall (fun col => is_Some (row !! col)) cols.

Definition ADDRESS_COLS : list str := [u "HOUSE #"; u "STREET NAME"; u "ZIP CODE"].

(** The element a district column is scraped from. *)
Definition ELEMENT_IDS : list (str * str) :=
  [ (u "AD", u "assembly_district"); (u "ED", u "election_district");
    (u "Cong D", u "congress_district"); (u "SD", u "senate_district");
    (u "Council D", u "council_district"); (u "JD", u "judicial_district") ].

(** What the specification says is stored in a district column: the
    scraped text, cut before its first ["/"] for ["ED"]. *)
Definition stored_value (p : Page) (col : str) : option str :=
  match dict_get ELEMENT_IDS col with
  | Some id =>
      Some (if bool_decide (col = u "ED")
            then before_slash (safe_get_text p id)
            else safe_get_text p id)
  | None => None
  end.

(** ** Output path *)

(** [p.rfind(c)] for any of the characters [cs]: the last index at which
    one of them occurs, or [-1]. *)
Fixpoint rfind_from (cs : list N) (p : str) (i : Z) (found : Z) : Z :=
  match p with
  | [] => found
  | c :: r =>
      rfind_from cs r (i + 1)%Z (if bool_decide (c ∈ cs) then i else found)
  end.

Definition rfind (cs : list N) (p : str) : Z := rfind_from cs p 0%Z (-1)%Z.

(** [os.path.splitext(p)[0]].  [seps] are the separators of the platform:
    ["/"] alone, or ["\"] and ["/"].  The extension starts at the last dot
    after the last separator, unless only dots come before it in the file
    name. *)
Definition splitext_root (seps : list N) (p : str) : str :=
  let sepIndex := rfind seps p in
  let dotIndex := rfind [46] p in
  if (sepIndex <? dotIndex)%Z then
    let name := take (Z.to_nat (dotIndex - (sepIndex + 1))) (drop (Z.to_nat (sepIndex + 1)) p) in
    if forallb (fun c => c =? 46) name then p
    else take (Z.to_nat dotIndex) p
  else p.

(** [f"{base_name}{suffix}.xlsx"] and [f"{base_name}{suffix}({i}).xlsx"];
    the suffix is ["_with_districts"] in [script2.py] and ["_corrected"]
    in [script.py]. *)
Definition first_candidate (base_name suffix : str) : str :=
  base_name ++ suffix ++ u ".xlsx".

Definition numbered_candidate (base_name suffix : str) (i : N) : str :=
  base_name ++ suffix ++ u "(" ++ str_of_N i ++ u ").xlsx".

(** [while os.path.exists(output_path): ...], with the files that exist as
    a finite set.  [fuel] bounds the number of tests of the condition. *)
Fixpoint path_loop (fuel : nat) (files : gset str) (base_name suffix : str)
    (output_path : str) (i : N) : option str :=
  match fuel with
  | O => None
  | S fuel' =>
      if bool_decide (output_path ∈ files)
      then path_loop fuel' files base_name suffix
             (numbered_candidate base_name suffix i) (i + 1)
      else Some output_path
  end.

(** "Save output": the path the frame is written to. *)
Definition output_path (fuel : nat) (seps : list N) (suffix : str)
    (files : gset str) (file_path : str) : option str :=
  let base_name := splitext_root seps file_path in
  path_loop fuel files base_name suffix (first_candidate base_name suffix) 1.

Definition suffix2 : str := u "_with_districts".
Definition suffix1 : str := u "_corrected".

(** ** Notions used in the statements and proofs *)

(** The first character, if any, is not whitespace. *)
Definition head_ok (s : str) : Prop :=
  match s with
  | [] => True
  | c :: _ => isspace c = false
  end.

(** No whitespace at either end. *)
Definition trimmed (s : str) : Prop := head_ok s /\ head_ok (rev s).

Section ResolverNotions.
Context `{PyRuntime}.

(** The key of a header: rank of its first matching pattern and the
    negated length of its normal form. *)
Definition col_key (patterns : list str) (col : str) : option (nat * Z) :=
  match first_match patterns (norm_keep_symbols col) 0 with
  | None => None
  | Some rank => Some (rank, (- Z.of_nat (length (norm_keep_symbols col)))%Z)
  end.

(** What the loop keeps true of [best] after the headers [seen]. *)
Definition best_of (patterns seen : list str)
    (best : option ((nat * Z) * str)) : Prop :=
  match best with
  | None => forall col, In col seen -> col_key patterns col = None
  | Some (k, h) =>
      In h seen /\ col_key patterns h = Some k /\
      forall col k', In col seen -> col_key patterns col = Some k' ->
                     key_ltb k' k = false
  end.

(** [col] is, up to trimming and case, one of the aliases [names]. *)
Definition is_alias (names : list str) (col : str) : Prop :=
  norm_exact col ∈ map norm_exact names.

End ResolverNotions.

(** The names in the order the loop tries them: the plain one, then
    ["(1)"], ["(2)"], ... *)
Definition candidate (base_name suffix : str) (n : nat) : str :=
  match n with
  | O => first_candidate base_name suffix
  | S _ => numbered_candidate base_name suffix (N.of_nat n)
  end.

(** The fields the update loop of [script2.py] assigns. *)
Definition mismatch2 (row : Row) (item : str * str) : bool :=
  negb (bool_decide (strip (safe_text (Script2.get row item.1)) = item.2)).

(** A column is either untouched, or assigned a value of [items]. *)
Definition touched (items : list (str * str)) (before after : Row * list str)
    (col : str) : Prop :=
  (after.1 !! col = before.1 !! col /\ (col ∈ after.2 <-> col ∈ before.2)) \/
  (col ∈ after.2 /\ exists v, (col, v) ∈ items /\ after.1 !! col = Some (CStr v)).

(** The fields the update loop of [script.py] assigns. *)
Definition mismatch1 (row : Row) (item : str * str) : bool :=
  match row !! item.1 with
  | Some cell => negb (bool_decide (Script.excel_val cell item.2 = item.2))
  | None => false
  end.

(** Every column of the row is either left as it was, or was assigned the
    value the specification gives for the page that [res] loaded. *)
Definition stored_ok (res : SiteResult) (row : Row) (o : Outcome) : Prop :=
  forall col,
    ((col ∉ mutated o) /\ row_after o !! col = row !! col) \/
    (col ∈ mutated o /\
     exists p v, res = Loaded p /\ stored_value p col = Some v /\
                 row_after o !! col = Some (CStr v)).


(** What the update loop does with one district column whose site value
    is [v]: when the row's own value is [equal] to it the cell stays and
    the column is not assigned; otherwise the cell becomes [v] and the
    column is assigned. *)
Definition assigns (row : Row) (o : Outcome) (col v : str) (equal : Prop) : Prop :=
  (equal -> row_after o !! col = row !! col /\ col ∉ mutated o) /\
  (~ equal -> row_after o !! col = Some (CStr v) /\ col ∈ mutated o).

(** ** Sample rows and pages *)

(** A page with the six district fields filled in. *)
Definition sample_page : Page :=
  {| div_message := None;
     element_text :=
       dict_get [ (u "assembly_district", u "49");
                  (u "election_district", u " 012/49 ");
                  (u "congress_district", u "10");
                  (u "senate_district", u "17");
                  (u "council_district", u "43");
                  (u "judicial_district", u "2") ] |}.

(** A results page on which none of the six elements is found. *)
Definition empty_page : Page :=
  {| div_message := Some (u "  "); element_text := fun _ => None |}.

(** A row with its address and some districts already there. *)
Definition sample_row : Row :=
  list_to_map
    [ (u "HOUSE #", CStr (u "1876.0")); (u "STREET NAME", CStr (u " 19th  ave "));
      (u "ZIP CODE", CStr (u "11204"));
      (u "AD", CStr (u "49")); (u "ED", CStr (u "11")); (u "Cong D", CNaN);
      (u "SD", CStr (u "17")); (u "Council D", CStr (u "43"));
      (u "JD", CStr (u "2")) ].

(** The same row without house number. *)
Definition blank_house_row : Row := <[u "HOUSE #" := CStr (u "   ")]> sample_row.

(** The same row in a frame that has no ["ED"] column, and a stale ["AD"]. *)
Definition no_ed_row : Row :=
  <[u "AD" := CStr (u "48")]> (delete (u "ED") sample_row).

(** A results page whose only text is an election district that starts
    with ["/"]. *)
Definition slash_page : Page :=
  {| div_message := None;
     element_text := dict_get [ (u "election_district", u "/49") ] |}.

Definition sample_lookup (p : Page) : Lookup := fun _ _ _ => Loaded p.

(** ** Further notions: shapes of normalised text, column detection *)

(** Every whitespace character is a single space that is followed by a
    character that is not whitespace, or ends the string. *)
Fixpoint single_spaced (s : str) : bool :=
  match s with
  | [] => true
  | c :: r =>
      (negb (isspace c)
       || ((c =? 32) && match r with
                        | d :: _ => negb (isspace d)
                        | [] => true
                        end))
      && single_spaced r
  end.

(** The truth value of a resolver result: [None] and [""] are false. *)
Definition truthy (a : option str) : bool :=
  match a with
  | Some (_ :: _) => true
  | _ => false
  end.

Section Detection.
Context `{PyRuntime}.

(** "Detect required columns": the three headers, or [None] where the
    script stops with [SystemExit] because [all([house_col, street_col,
    zip_col])] is false. *)
Definition detect_columns (columns : list str) : option (str * str * str) :=
  let house_col := resolve House columns in
  let street_col := resolve Street columns in
  let zip_col := resolve Zip columns in
  if forallb truthy [house_col; street_col; zip_col]
  then Some (default [] house_col, default [] street_col, default [] zip_col)
  else None.
End Detection.

(** Is there a ["("] that is closed by a [")"] on its line? *)
Fixpoint has_group (s : str) : bool :=
  match s with
  | [] => false
  | c :: r => ((c =? 40) && closes r) || has_group r
  end.

Section RegexNotions.
Context `{PyRuntime}.

(** The key of the header that [find_regex] returns. *)
Definition result_key (columns patterns : list str) : option (nat * Z) :=
  match find_regex columns patterns with
  | Some h => col_key patterns h
  | None => None
  end.

(** [best] is the first of the headers [seen] that has the least key. *)
Definition first_best (patterns seen : list str)
    (best : option ((nat * Z) * str)) : Prop :=
  match best with
  | None => forall col, In col seen -> col_key patterns col = None
  | Some (k, h) =>
      exists pre post,
        seen = pre ++ h :: post /\ col_key patterns h = Some k /\
        (forall col k', In col pre -> col_key patterns col = Some k' ->
                        key_ltb k k' = true) /\
        (forall col k', In col post -> col_key patterns col = Some k' ->
                        key_ltb k' k = false)
  end.
End RegexNotions.

(** The body of the row loop of [script2.py] for an address already
    cleaned: [Script2.process_row] is this at the address of the row. *)
Definition process_with (lookup : Lookup) (addr : str * str * str)
    (index : nat) (row : Row) : Outcome :=
  let '(house_number, street_name, zip_code) := addr in
  let entry reason :=
    {| ir_row := index; ir_house := house_number; ir_street := street_name;
       ir_zip := zip_code; ir_reason := reason |} in
  if missing_address house_number street_name zip_code then unchanged row []
  else
    match lookup house_number street_name zip_code with
    | Fault e => unchanged row [entry (u "Script error: " ++ e)]
    | Loaded p =>
        match error_text p with
        | Some msg => unchanged row [entry msg]
        | None =>
            let sd := site_data p in
            if no_data sd then unchanged row [entry (u "No polling info returned")]
            else
              let acc := fold_left (Script2.update_step row) sd (row, []) in
              {| row_after := acc.1; appended := []; mutated := acc.2 |}
        end
    end.

(** What every entry of [invalid_rows] made for [row] at [index] holds. *)
Definition entry_ok (addr : str * str * str) (index : nat) (e : InvalidRow) : Prop :=
  ir_row e = index /\ (ir_house e, ir_street e, ir_zip e) = addr /\
  ir_house e <> [] /\ ir_street e <> [] /\ ir_zip e <> [] /\ ir_reason e <> [].

(** A cell that [script.py] reads as blank: only text that is whitespace. *)
Definition blank1 (x : Cell) : bool :=
  match x with
  | CStr s | CFloat _ s => forallb isspace s
  | _ => false
  end.

(** A cell whose text, for [script2.py], is whitespace only or empty. *)
Definition blank2 (x : Cell) : bool := forallb isspace (safe_text x).

(** No sign in front: [zfill] then pads on the left of the whole text. *)
Definition no_sign (s : str) : bool :=
  match s with
  | c :: _ => negb ((c =? 43) || (c =? 45))
  | [] => true
  end.
#[export] Program Instance ascii_runtime : PyRuntime := {|
  isdecimal := ascii_isdecimal;
  toupper := ascii_toupper;
  str_lower := map ascii_tolower;
  re_search := contains
|}.
Next Obligation. reflexivity. Qed.
Next Obligation.
  intros c Hc. unfold ascii_isdecimal in Hc. unfold isspace.
  apply andb_true_iff in Hc as [H1 H2].
  apply N.leb_le in H1. apply N.leb_le in H2.
  repeat match goal with
  | |- context [?a <=? ?b] => destruct (N.leb_spec a b); try lia
  | |- context [?a =? ?b] => destruct (N.eqb_spec a b); try lia
  end; reflexivity.
Qed.
Next Obligation.
  intros c Hc. unfold ascii_toupper.
  destruct ((97 <=? c) && (c <=? 122)) eqn:E; [|reflexivity].
  exfalso. apply andb_true_iff in E as [H1 H2].
  apply N.leb_le in H1. apply N.leb_le in H2.
  unfold isspace in Hc.
  repeat match type of Hc with
  | context [?a <=? ?b] => destruct (N.leb_spec a b); try lia
  | context [?a =? ?b] => destruct (N.eqb_spec a b); try lia
  end; discriminate.
Qed.
Next Obligation.
  intros c Hc. unfold ascii_toupper.
  destruct ((97 <=? c) && (c <=? 122)) eqn:E.
  - split; [discriminate|]. constructor; [|constructor].
    apply andb_true_iff in E as [H1 H2].
    apply N.leb_le in H1. apply N.leb_le in H2.
    unfold isspace.
    repeat match goal with
    | |- context [?a <=? ?b] => destruct (N.leb_spec a b); try lia
    | |- context [?a =? ?b] => destruct (N.eqb_spec a b); try lia
    end; reflexivity.
  - split; [discriminate|]. constructor; [assumption|constructor].
Qed.
Next Obligation.
  intros c d Hd. unfold ascii_toupper in *.
  destruct ((97 <=? c) && (c <=? 122)) eqn:E.
  - destruct Hd as [<-|[]].
    apply andb_true_iff in E as [H1 H2].
    apply N.leb_le in H1. apply N.leb_le in H2.
    destruct (N.leb_spec 97 (c - 32)); [lia|]. reflexivity.
  - destruct Hd as [<-|[]]. rewrite E. reflexivity.
Qed.
Next Obligation. reflexivity. Qed.
Next Obligation. intros c s. discriminate. Qed.

Example u_ascii : u "HOUSE #" = [72; 79; 85; 83; 69; 32; 35].
Proof. reflexivity. Qed.

(** ** Lemmas on whitespace handling *)

Lemma lstrip_head_ok s : head_ok (lstrip s).
Proof.
  induction s as [|c r IH]; simpl; [exact I|].
  destruct (isspace c) eqn:E; [exact IH|]. simpl. exact E.
Qed.

Lemma lstrip_id s : head_ok s -> lstrip s = s.
Proof. destruct s as [|c r]; simpl; [reflexivity|]. intros ->. reflexivity. Qed.

Lemma lstrip_snoc a c : isspace c = false -> lstrip (a ++ [c]) = lstrip a ++ [c].
Proof.
  intros Hc. induction a as [|x a IH]; simpl.
  - rewrite Hc. reflexivity.
  - destruct (isspace x); [exact IH|reflexivity].
Qed.

Lemma head_ok_app a b : a <> [] -> head_ok a -> head_ok (a ++ b).
Proof. destruct a; simpl; [congruence|auto]. Qed.

Lemma strip_trimmed s : trimmed (strip s).
Proof.
  unfold trimmed, strip, rstrip. rewrite rev_involutive.
  split; [|apply lstrip_head_ok].
  pose proof (lstrip_head_ok s) as Hh.
  destruct (lstrip s) as [|c r]; [exact I|]. simpl in Hh.
  simpl rev. rewrite lstrip_snoc by exact Hh.
  rewrite rev_app_distr. simpl. exact Hh.
Qed.

Lemma strip_id s : trimmed s -> strip s = s.
Proof.
  intros [H1 H2]. unfold strip, rstrip.
  rewrite (lstrip_id s H1), (lstrip_id _ H2). apply rev_involutive.
Qed.

Lemma length_lstrip s : (length (lstrip s) <= length s)%nat.
Proof.
  induction s as [|c r IH]; simpl; [lia|].
  destruct (isspace c); simpl; lia.
Qed.

Lemma length_strip s : (length (strip s) <= length s)%nat.
Proof.
  unfold strip, rstrip. rewrite length_rev.
  etransitivity; [apply length_lstrip|]. rewrite length_rev. apply length_lstrip.
Qed.

Lemma length_strip_ws_end a c :
  isspace c = true -> (length (strip (a ++ [c])) < length (a ++ [c]))%nat.
Proof.
  intros Hc. unfold strip, rstrip. rewrite length_rev.
  pose proof (length_lstrip (a ++ [c])) as Hl.
  destruct (lstrip (a ++ [c])) as [|x l] eqn:E using rev_ind.
  - simpl. rewrite length_app. simpl. lia.
  - clear IHl. rewrite rev_app_distr. simpl.
    assert (x = c) as ->.
    { clear Hl. revert E. induction a as [|y a IH]; simpl.
      - rewrite Hc. destruct l; discriminate.
      - destruct (isspace y); [exact IH|].
        intros E. change (y :: a ++ [c]) with ((y :: a) ++ [c]) in E.
        apply app_inj_tail in E. symmetry. apply E. }
    rewrite Hc. pose proof (length_lstrip (rev l)) as Hr.
    rewrite length_rev in Hr. rewrite length_app in Hl. simpl in Hl. lia.
Qed.

(** *** [collapse_ws] *)

Lemma sub_ws_app_nonws b a c w :
  isspace c = false ->
  sub_ws b (a ++ c :: w) = sub_ws b a ++ c :: sub_ws false w.
Proof.
  intros Hc. revert b. induction a as [|x a IH]; intros b; simpl.
  - rewrite Hc. reflexivity.
  - destruct (isspace x).
    + destruct b; rewrite IH; reflexivity.
    + rewrite IH. reflexivity.
Qed.

Lemma sub_ws_false_nonws w :
  Forall (fun c => isspace c = false) w -> sub_ws false w = w.
Proof.
  induction 1 as [|c w Hc _ IH]; simpl; [reflexivity|].
  rewrite Hc, IH. reflexivity.
Qed.

Lemma sub_ws_false_nonws_inv t w :
  Forall (fun c => isspace c = false) w -> sub_ws false t = w -> t = w.
Proof.
  intros Hw. revert t. induction Hw as [|c w Hc _ IH]; intros t; destruct t as [|x t]; simpl.
  - reflexivity.
  - destruct (isspace x); discriminate.
  - discriminate.
  - destruct (isspace x) eqn:E.
    + intros [= <- _]. discriminate.
    + intros [= -> Ht]. f_equal. apply IH. exact Ht.
Qed.

Lemma sub_ws_inv_nonws t : forall b Y c w,
  isspace c = false -> Forall (fun d => isspace d = false) w ->
  sub_ws b t = Y ++ c :: w ->
  exists t', t = t' ++ c :: w /\ sub_ws b t' = Y.
Proof.
  induction t as [|x t IH]; intros b Y c w Hc Hw E; simpl in E.
  - destruct Y; discriminate.
  - destruct (isspace x) eqn:Ex.
    + destruct b.
      * destruct (IH true Y c w Hc Hw E) as (t' & -> & <-).
        exists (x :: t'). simpl. rewrite Ex. auto.
      * destruct Y as [|y Y]; simpl in E.
        { injection E as <- _. discriminate. }
        injection E as <- E.
        destruct (IH true Y c w Hc Hw E) as (t' & -> & <-).
        exists (x :: t'). simpl. rewrite Ex. auto.
    + destruct Y as [|y Y]; simpl in E.
      * injection E as -> E. exists []. split; [|reflexivity]. simpl. f_equal.
        apply sub_ws_false_nonws_inv; assumption.
      * injection E as <- E.
        destruct (IH false Y c w Hc Hw E) as (t' & -> & <-).
        exists (x :: t'). simpl. rewrite Ex. auto.
Qed.

Lemma sub_ws_idem s : forall b b', implb b' b = true ->
  sub_ws b' (sub_ws b s) = sub_ws b s.
Proof.
  induction s as [|x s IH]; intros b b' Hb; simpl; [reflexivity|].
  destruct (isspace x) eqn:Ex.
  - destruct b.
    + apply IH. exact Hb.
    + destruct b'; [discriminate|]. simpl. f_equal. apply IH. reflexivity.
  - simpl. rewrite Ex. f_equal. apply IH. reflexivity.
Qed.

Lemma collapse_ws_idem s : collapse_ws (collapse_ws s) = collapse_ws s.
Proof. apply sub_ws_idem. reflexivity. Qed.

Lemma sub_ws_Forall (P : N -> Prop) b s :
  P 32 -> Forall P s -> Forall P (sub_ws b s).
Proof.
  intros H32 Hs. revert b. induction Hs as [|x s Hx _ IH]; intros b; simpl.
  - constructor.
  - destruct (isspace x); [destruct b|]; auto.
Qed.

Lemma sub_ws_chars b s :
  Forall (fun c => isspace c = false \/ c = 32) (sub_ws b s).
Proof.
  revert b. induction s as [|x s IH]; intros b; simpl; [constructor|].
  destruct (isspace x) eqn:Ex; [destruct b|]; auto.
Qed.

Lemma length_sub_ws b s : (length (sub_ws b s) <= length s)%nat.
Proof.
  revert b. induction s as [|x s IH]; intros b; simpl; [lia|].
  pose proof (IH true). pose proof (IH false).
  destruct (isspace x); [destruct b|]; simpl; lia.
Qed.

Lemma collapse_ws_head_ok s : head_ok s -> head_ok (collapse_ws s).
Proof.
  unfold collapse_ws. destruct s as [|c s]; simpl; [auto|].
  intros E. rewrite E. simpl. exact E.
Qed.

Lemma collapse_ws_trimmed s : trimmed s -> trimmed (collapse_ws s).
Proof.
  intros [H1 H2]. split; [apply collapse_ws_head_ok, H1|].
  destruct s as [|c s _] using rev_ind; [exact I|].
  rewrite rev_app_distr in H2. simpl in H2.
  unfold collapse_ws. rewrite sub_ws_app_nonws by exact H2.
  rewrite rev_app_distr. simpl. exact H2.
Qed.

(** ** The normalisers *)

Lemma forallb_ascii_Forall (s : str) :
  forallb (fun c => c <? 128) s = true -> Forall (fun c => c < 128) s.
Proof.
  rewrite forallb_forall, List.Forall_forall. intros Hs c Hc.
  apply N.ltb_lt. apply Hs. exact Hc.
Qed.

Section NormalizerFacts.
Context `{PyRuntime}.

Lemma isdecimal_zero : isdecimal 48 = true.
Proof. rewrite isdecimal_ascii by lia. reflexivity. Qed.

Lemma isdecimal_not_sign c : isdecimal c = true -> (c =? 43) || (c =? 45) = false.
Proof.
  intros Hc. destruct (N.eqb_spec c 43) as [->|]; simpl.
  - rewrite isdecimal_ascii in Hc by lia. discriminate.
  - destruct (N.eqb_spec c 45) as [->|]; [|reflexivity].
    rewrite isdecimal_ascii in Hc by lia. discriminate.
Qed.

Lemma keep_digits_Forall s : Forall (fun c => isdecimal c = true) (keep_digits s).
Proof.
  apply List.Forall_forall. intros c Hc.
  apply filter_In in Hc. apply Hc.
Qed.

Lemma keep_digits_id s :
  Forall (fun c => isdecimal c = true) s -> keep_digits s = s.
Proof.
  induction 1 as [|c s Hc _ IH]; simpl; [reflexivity|].
  rewrite Hc. f_equal. exact IH.
Qed.

Lemma keep_digits_lstrip s : keep_digits (lstrip s) = keep_digits s.
Proof.
  induction s as [|c s IH]; simpl; [reflexivity|].
  destruct (isspace c) eqn:Es; [|reflexivity].
  rewrite IH. destruct (isdecimal c) eqn:Ed; [|reflexivity].
  apply isdecimal_isspace in Ed. congruence.
Qed.

Lemma keep_digits_rev s : keep_digits (rev s) = rev (keep_digits s).
Proof.
  unfold keep_digits. induction s as [|c s IH]; simpl; [reflexivity|].
  rewrite List.filter_app, IH. simpl.
  destruct (isdecimal c); simpl; [reflexivity|apply app_nil_r].
Qed.

Lemma keep_digits_strip s : keep_digits (strip s) = keep_digits s.
Proof.
  unfold strip, rstrip.
  rewrite keep_digits_rev, keep_digits_lstrip, keep_digits_rev, rev_involutive.
  apply keep_digits_lstrip.
Qed.

Lemma keep_digits_ascii s :
  Forall (fun c => c < 128) s -> keep_digits s = List.filter ascii_isdecimal s.
Proof.
  induction 1 as [|c s Hc _ IH]; simpl; [reflexivity|].
  rewrite isdecimal_ascii by exact Hc. fold (ascii_isdecimal c).
  rewrite IH. reflexivity.
Qed.

Lemma zfill_digits d :
  length d = 4%nat -> Forall (fun c => isdecimal c = true) d ->
  zfill 5 d = 48 :: d.
Proof.
  intros Hl Hd. unfold zfill. rewrite Hl. simpl.
  destruct Hd as [|c d Hc _]; [discriminate|].
  rewrite (isdecimal_not_sign c Hc). reflexivity.
Qed.

Lemma nonws_trimmed s : Forall (fun c => isspace c = false) s -> trimmed s.
Proof.
  intros Hs. split.
  - destruct Hs; simpl; auto.
  - apply Forall_rev in Hs. destruct Hs; simpl; auto.
Qed.

Lemma digits_trimmed s : Forall (fun c => isdecimal c = true) s -> trimmed s.
Proof.
  intros Hs. apply nonws_trimmed.
  eapply Forall_impl; [exact Hs|]. intros c. apply isdecimal_isspace.
Qed.

(** The code's [clean_zip] computes what the specification describes,
    for every cell. *)
Lemma clean_zip_eq_spec x : clean_zip x = clean_zip_spec x.
Proof.
  unfold clean_zip, clean_zip_spec. rewrite keep_digits_strip.
  set (d := keep_digits (safe_text x)).
  destruct (Nat.eqb_spec (length d) 4) as [E|E].
  - rewrite zfill_digits by (exact E || apply keep_digits_Forall).
    simpl length. rewrite E. simpl. f_equal.
    apply firstn_all2. lia.
  - reflexivity.
Qed.

Lemma clean_zip_digits x : Forall (fun c => isdecimal c = true) (clean_zip x).
Proof.
  rewrite clean_zip_eq_spec. unfold clean_zip_spec.
  pose proof (keep_digits_Forall (safe_text x)) as Hd.
  destruct (length _ =? 4)%nat.
  - constructor; [apply isdecimal_zero|exact Hd].
  - destruct (5 <=? length _)%nat; [|exact Hd].
    apply Forall_take. exact Hd.
Qed.

Lemma clean_zip_length x :
  (length (clean_zip x) <= 5)%nat /\ length (clean_zip x) <> 4%nat.
Proof.
  rewrite clean_zip_eq_spec. unfold clean_zip_spec.
  set (d := keep_digits (safe_text x)).
  destruct (Nat.eqb_spec (length d) 4) as [E|E].
  - simpl. lia.
  - destruct (Nat.leb_spec 5 (length d)) as [L|L].
    + rewrite length_take. lia.
    + lia.
Qed.

(** C10: [clean_zip(x)] holds decimal digits only, has at most five
    characters and never exactly four; one to three digits are returned
    as they are. *)
Theorem clean_zip_shape x :
  Forall (fun c => isdecimal c = true) (clean_zip x) /\
  (length (clean_zip x) <= 5)%nat /\
  length (clean_zip x) <> 4%nat /\
  ((length (keep_digits (safe_text x)) < 4)%nat ->
   clean_zip x = keep_digits (safe_text x)).
Proof.
  split; [apply clean_zip_digits|].
  split; [apply clean_zip_length|].
  split; [apply clean_zip_length|].
  intros Hl. rewrite clean_zip_eq_spec. unfold clean_zip_spec.
  destruct (Nat.eqb_spec (length (keep_digits (safe_text x))) 4); [lia|].
  destruct (Nat.leb_spec 5 (length (keep_digits (safe_text x)))); [lia|].
  reflexivity.
Qed.
End NormalizerFacts.

Lemma clean_zip_ascii `{PyRuntime} x :
  Forall (fun c => c < 128) (safe_text x) ->
  clean_zip x = @clean_zip ascii_runtime x.
Proof.
  intros Hx. rewrite !clean_zip_eq_spec. unfold clean_zip_spec.
  rewrite (keep_digits_ascii _ Hx).
  rewrite (@keep_digits_ascii ascii_runtime _ Hx). reflexivity.
Qed.

(** C3: [clean_zip(x)] is: text of [x], digits only, four digits padded
    to five with a leading zero, five or more cut to the first five; and
    the three examples of the specification. *)
Theorem clean_zip_refines_spec `{PyRuntime} :
  (forall x, clean_zip x = clean_zip_spec x) /\
  clean_zip (CStr (u "1120")) = u "01120" /\
  clean_zip (CStr (u "112045678")) = u "11204" /\
  clean_zip (CStr (u "abc")) = u "".
Proof.
  split; [exact clean_zip_eq_spec|].
  repeat split;
    (rewrite clean_zip_ascii;
     [vm_compute; reflexivity
     |apply forallb_ascii_Forall; vm_compute; reflexivity]).
Qed.

(** *** Prefixes and suffixes *)

Lemma is_prefix_spec p s : is_prefix p s = true <-> exists r, s = p ++ r.
Proof.
  revert s. induction p as [|a p IH]; intros s; simpl.
  - split; [eauto|reflexivity].
  - destruct s as [|b s].
    + split; [discriminate|]. intros [r Hr]. discriminate.
    + rewrite andb_true_iff, N.eqb_eq, IH. split.
      * intros [-> [r ->]]. eauto.
      * intros [r [= -> ->]]. eauto.
Qed.

Lemma endswith_spec suf s : endswith suf s = true <-> exists p, s = p ++ suf.
Proof.
  unfold endswith. rewrite is_prefix_spec. split.
  - intros [r Hr]. exists (rev r).
    rewrite <- (rev_involutive s), Hr, rev_app_distr, rev_involutive. reflexivity.
  - intros [p ->]. exists (rev p). apply rev_app_distr.
Qed.

Lemma endswith_false suf s : endswith suf s = false -> forall p, s <> p ++ suf.
Proof.
  intros E p Hp. assert (endswith suf s = true) by (apply endswith_spec; eauto).
  congruence.
Qed.

Lemma take_app_suffix (p suf : str) :
  take (length (p ++ suf) - length suf) (p ++ suf) = p.
Proof.
  rewrite length_app. replace (length p + length suf - length suf)%nat with (length p) by lia.
  apply take_app_length.
Qed.

Lemma strip_suffix_dot0_app p : strip_suffix_dot0 (p ++ [46; 48]) = p.
Proof.
  unfold strip_suffix_dot0.
  replace (endswith [46; 48] (p ++ [46; 48])) with true
    by (symmetry; apply endswith_spec; eauto).
  apply (take_app_suffix p [46; 48]).
Qed.

Lemma strip_suffix_dot0_other s :
  (forall p, s <> p ++ [46; 48]) -> strip_suffix_dot0 s = s.
Proof.
  intros Hs. unfold strip_suffix_dot0.
  destruct (endswith [46; 48] s) eqn:E; [|reflexivity].
  apply endswith_spec in E as [p ->]. destruct (Hs p eq_refl).
Qed.

Lemma length_strip_suffix_dot0 s : (length (strip_suffix_dot0 s) <= length s)%nat.
Proof.
  unfold strip_suffix_dot0. destruct (endswith _ s); [|lia].
  rewrite length_take. lia.
Qed.

(** After [strip()] no newline ends the string, so [$] only matches at the
    very end. *)
Lemma sub_dot0_trimmed s : trimmed s -> sub_dot0 s = strip_suffix_dot0 s.
Proof.
  intros [_ Hr]. unfold sub_dot0, strip_suffix_dot0.
  destruct (endswith [46; 48] s); [reflexivity|].
  destruct (endswith [46; 48; 10] s) eqn:E; [|reflexivity].
  apply endswith_spec in E as [p ->].
  rewrite rev_app_distr in Hr. simpl in Hr. discriminate.
Qed.

Lemma collapse_strip_suffix_dot0 s :
  collapse_ws (strip_suffix_dot0 s) = strip_suffix_dot0 (collapse_ws s).
Proof.
  destruct (endswith [46; 48] s) eqn:E.
  - apply endswith_spec in E as [p ->].
    rewrite strip_suffix_dot0_app. unfold collapse_ws.
    rewrite sub_ws_app_nonws by reflexivity. simpl.
    rewrite strip_suffix_dot0_app. reflexivity.
  - rewrite (strip_suffix_dot0_other s (endswith_false _ _ E)).
    symmetry. apply strip_suffix_dot0_other. intros p Hp.
    apply sub_ws_inv_nonws in Hp as (t' & Ht & _);
      [|reflexivity|repeat constructor].
    exact (endswith_false _ _ E t' Ht).
Qed.

Lemma clean_house_eq_spec x : clean_house x = clean_house_spec x.
Proof.
  unfold clean_house, clean_house_spec.
  rewrite sub_dot0_trimmed by apply strip_trimmed.
  apply collapse_strip_suffix_dot0.
Qed.


(** *** Idempotence *)

Lemma head_ok_take n s : head_ok s -> head_ok (take n s).
Proof. destruct n, s; simpl; auto. Qed.

Lemma clean_house_head_ok x : head_ok (clean_house x).
Proof.
  unfold clean_house. apply collapse_ws_head_ok.
  rewrite sub_dot0_trimmed by apply strip_trimmed.
  unfold strip_suffix_dot0. destruct (endswith _ _).
  - apply head_ok_take, strip_trimmed.
  - apply strip_trimmed.
Qed.

Lemma clean_house_fixed o :
  head_ok o -> collapse_ws o = o ->
  (clean_house (CStr o) = o <->
   endswith [32] o = false /\ endswith [46; 48] o = false).
Proof.
  intros Hh Hc. unfold clean_house. simpl safe_text. split.
  - intros Heq.
    assert (Hlen : forall s, (length (collapse_ws (sub_dot0 (strip s)))
                              <= length (strip_suffix_dot0 (strip s)))%nat).
    { intros s. rewrite sub_dot0_trimmed by apply strip_trimmed.
      apply length_sub_ws. }
    split.
    + destruct (endswith [32] o) eqn:E; [|reflexivity]. exfalso.
      apply endswith_spec in E as [p ->].
      pose proof (length_strip_ws_end p 32 eq_refl) as L1.
      pose proof (Hlen (p ++ [32])) as L2.
      pose proof (length_strip_suffix_dot0 (strip (p ++ [32]))) as L3.
      rewrite Heq in L2. lia.
    + destruct (endswith [46; 48] o) eqn:E; [|reflexivity]. exfalso.
      apply endswith_spec in E as [p ->].
      assert (Ht : trimmed (p ++ [46; 48])).
      { split; [exact Hh|]. rewrite rev_app_distr. reflexivity. }
      rewrite (strip_id _ Ht), (sub_dot0_trimmed _ Ht), strip_suffix_dot0_app in Heq.
      pose proof (length_sub_ws false p) as L. unfold collapse_ws in Heq.
      rewrite Heq, length_app in L. simpl in L. lia.
  - intros [E1 E2].
    assert (Ht : trimmed o).
    { split; [exact Hh|].
      destruct o as [|c o _] using rev_ind; [exact I|].
      rewrite rev_app_distr. simpl.
      pose proof (sub_ws_chars false (o ++ [c])) as Hch.
      fold (collapse_ws (o ++ [c])) in Hch. rewrite Hc in Hch.
      apply Forall_app in Hch as [_ Hch]. inversion Hch as [|? ? [Hs| ->] _]; [exact Hs|].
      exfalso. exact (endswith_false _ _ E1 o eq_refl). }
    rewrite (strip_id _ Ht), (sub_dot0_trimmed _ Ht).
    rewrite (strip_suffix_dot0_other o (endswith_false _ _ E2)). exact Hc.
Qed.

Section UpperFacts.
Context `{PyRuntime}.

Lemma toupper_head_ok c r : isspace c = false -> head_ok (toupper c ++ r).
Proof.
  intros Hc. destruct (toupper_nonspace c Hc) as [Hne Hall].
  destruct Hall as [|d l Hd _]; [congruence|]. simpl. exact Hd.
Qed.

Lemma str_upper_app a b : str_upper (a ++ b) = str_upper a ++ str_upper b.
Proof. apply flat_map_app. Qed.

Lemma str_upper_trimmed s : trimmed s -> trimmed (str_upper s).
Proof.
  intros [H1 H2]. split.
  - destruct s as [|c s]; [exact I|]. simpl in *. apply toupper_head_ok, H1.
  - destruct s as [|c s _] using rev_ind; [exact I|].
    rewrite rev_app_distr in H2. simpl in H2.
    rewrite str_upper_app, rev_app_distr. simpl. rewrite app_nil_r.
    destruct (toupper_nonspace c H2) as [Hne Hall].
    apply Forall_rev in Hall.
    destruct (rev (toupper c)) as [|d l] eqn:E.
    + apply (f_equal (@rev N)) in E. rewrite rev_involutive in E. destruct (Hne E).
    + inversion Hall. simpl. assumption.
Qed.

Lemma str_upper_stable s : Forall (fun d => toupper d = [d]) (str_upper s).
Proof.
  apply List.Forall_forall. intros d Hd. unfold str_upper in Hd.
  apply in_flat_map in Hd as (c & _ & Hd). exact (toupper_stable c d Hd).
Qed.

Lemma str_upper_id s : Forall (fun d => toupper d = [d]) s -> str_upper s = s.
Proof.
  induction 1 as [|c s Hc _ IH]; simpl; [reflexivity|].
  rewrite Hc, IH. reflexivity.
Qed.

Lemma clean_street_idem x : clean_street (CStr (clean_street x)) = clean_street x.
Proof.
  unfold clean_street. simpl safe_text.
  set (v := str_upper (strip (safe_text x))).
  assert (Ht : trimmed (collapse_ws v)).
  { apply collapse_ws_trimmed, str_upper_trimmed, strip_trimmed. }
  rewrite (strip_id _ Ht).
  rewrite str_upper_id.
  - apply collapse_ws_idem.
  - apply sub_ws_Forall; [|apply str_upper_stable].
    apply toupper_isspace. reflexivity.
Qed.

Lemma clean_zip_idem x : clean_zip (CStr (clean_zip x)) = clean_zip x.
Proof.
  rewrite (clean_zip_eq_spec (CStr _)). unfold clean_zip_spec. simpl safe_text.
  rewrite (keep_digits_id _ (clean_zip_digits x)).
  destruct (clean_zip_length x) as [L5 L4].
  destruct (Nat.eqb_spec (length (clean_zip x)) 4); [contradiction|].
  destruct (Nat.leb_spec 5 (length (clean_zip x))); [|reflexivity].
  apply firstn_all2. lia.
Qed.

(** C1, as the code has it: [clean_street] and [clean_zip] are
    idempotent; [clean_house] maps its own output to itself exactly when
    that output ends neither in a space nor in [".0"]. *)
Theorem normalizers_idempotence x :
  clean_street (CStr (clean_street x)) = clean_street x /\
  clean_zip (CStr (clean_zip x)) = clean_zip x /\
  (clean_house (CStr (clean_house x)) = clean_house x <->
   endswith (u " ") (clean_house x) = false /\
   endswith (u ".0") (clean_house x) = false).
Proof.
  split; [apply clean_street_idem|]. split; [apply clean_zip_idem|].
  apply clean_house_fixed; [apply clean_house_head_ok|].
  unfold clean_house. apply collapse_ws_idem.
Qed.
End UpperFacts.

(** C1 as stated fails for [clean_house]: of two trailing [".0"] only one
    is removed at each application. *)
Lemma clean_house_not_idempotent :
  clean_house (CStr (u "1876.0.0")) = u "1876.0" /\
  clean_house (CStr (clean_house (CStr (u "1876.0.0")))) = u "1876" /\
  clean_house (CStr (clean_house (CStr (u "1876.0.0"))))
    <> clean_house (CStr (u "1876.0.0")).
Proof.
  split; [vm_compute; reflexivity|]. split; [vm_compute; reflexivity|].
  vm_compute. discriminate.
Qed.

Example u_cjk : u "门牌号码" = [38376; 29260; 21495; 30721].
Proof. reflexivity. Qed.

Example norm_keep_symbols_ex :
  @norm_keep_symbols ascii_runtime (u "House  Number (ex: 3514) / No")
  = u "house number    no".
Proof. vm_compute. reflexivity. Qed.

(** ** The regular-expression pass *)

Section RegexPass.
Context `{PyRuntime}.

Lemma first_match_Some patterns c : forall n r,
  first_match patterns c n = Some r ->
  (n <= r)%nat /\
  (exists pat, nth_error patterns (r - n) = Some pat /\ re_search pat c = true) /\
  (forall j pat, (j < r - n)%nat -> nth_error patterns j = Some pat ->
                 re_search pat c = false).
Proof.
  induction patterns as [|p ps IH]; intros n r E; simpl in E; [discriminate|].
  destruct (re_search p c) eqn:Ep.
  - injection E as <-. split; [lia|]. rewrite Nat.sub_diag. split.
    + exists p. auto.
    + intros j pat Hj. lia.
  - destruct (IH _ _ E) as (Hle & (pat & Hn & Hm) & Hbefore).
    split; [lia|]. split.
    + exists pat. replace (r - n)%nat with (S (r - S n)) by lia. auto.
    + intros [|j] pat' Hj Hn'; simpl in Hn'.
      * congruence.
      * apply (Hbefore j pat'); [lia|exact Hn'].
Qed.

Lemma first_match_None patterns c : forall n,
  first_match patterns c n = None ->
  forall pat, In pat patterns -> re_search pat c = false.
Proof.
  induction patterns as [|p ps IH]; intros n E pat Hin; simpl in *; [contradiction|].
  destruct (re_search p c) eqn:Ep; [discriminate|].
  destruct Hin as [<-|Hin]; [exact Ep|]. exact (IH _ E pat Hin).
Qed.

Lemma key_ltb_irrefl k : key_ltb k k = false.
Proof.
  unfold key_ltb. rewrite Nat.ltb_irrefl, Z.ltb_irrefl, andb_false_r. reflexivity.
Qed.

Lemma key_ltb_false a b :
  key_ltb a b = false <->
  (b.1 <= a.1)%nat /\ (a.1 = b.1 -> (b.2 <= a.2)%Z).
Proof.
  unfold key_ltb. rewrite orb_false_iff, andb_false_iff.
  rewrite Nat.ltb_ge, Nat.eqb_neq, Z.ltb_ge. split.
  - intros [H1 [H2|H2]]; split; auto. intros E. contradiction.
  - intros [H1 H2]. split; [exact H1|].
    destruct (Nat.eq_dec a.1 b.1); auto.
Qed.

Lemma key_le_trans a b c :
  key_ltb b a = false -> key_ltb c b = false -> key_ltb c a = false.
Proof. rewrite !key_ltb_false. intros [? ?] [? ?]. split; lia. Qed.

Lemma key_ltb_asym a b : key_ltb a b = true -> key_ltb b a = false.
Proof.
  unfold key_ltb. rewrite orb_true_iff, andb_true_iff, orb_false_iff, andb_false_iff.
  rewrite !Nat.ltb_lt, !Nat.ltb_ge, Nat.eqb_eq, Nat.eqb_neq, Z.ltb_lt, Z.ltb_ge.
  intros [Hlt|[He Hlt]]; split; lia.
Qed.

Lemma regex_step_best_of patterns seen best col :
  best_of patterns seen best ->
  best_of patterns (seen ++ [col]) (regex_step patterns best col).
Proof.
  intros Hb. unfold regex_step.
  destruct (first_match patterns (norm_keep_symbols col) 0) as [rank|] eqn:E.
  - assert (Hk : col_key patterns col
                 = Some (rank, (- Z.of_nat (length (norm_keep_symbols col)))%Z))
      by (unfold col_key; rewrite E; reflexivity).
    destruct best as [[kb hb]|]; simpl in Hb.
    + destruct Hb as (Hin & Hkb & Hmin).
      destruct (key_ltb _ kb) eqn:Elt; simpl.
      * split; [apply in_or_app; right; left; reflexivity|]. split; [exact Hk|].
        intros c k' Hc Hk'. apply in_app_or in Hc as [Hc|[<-|[]]].
        -- eapply key_le_trans; [apply key_ltb_asym, Elt|].
           apply (Hmin c k' Hc Hk').
        -- rewrite Hk in Hk'. injection Hk' as <-. apply key_ltb_irrefl.
      * split; [apply in_or_app; left; exact Hin|]. split; [exact Hkb|].
        intros c k' Hc Hk'. apply in_app_or in Hc as [Hc|[<-|[]]].
        -- exact (Hmin c k' Hc Hk').
        -- rewrite Hk in Hk'. injection Hk' as <-. exact Elt.
    + simpl. split; [apply in_or_app; right; left; reflexivity|]. split; [exact Hk|].
      intros c k' Hc Hk'. apply in_app_or in Hc as [Hc|[<-|[]]].
      * rewrite (Hb c Hc) in Hk'. discriminate.
      * rewrite Hk in Hk'. injection Hk' as <-. apply key_ltb_irrefl.
  - assert (Hk : col_key patterns col = None)
      by (unfold col_key; rewrite E; reflexivity).
    destruct best as [[kb hb]|]; simpl in *.
    + destruct Hb as (Hin & Hkb & Hmin).
      split; [apply in_or_app; left; exact Hin|]. split; [exact Hkb|].
      intros c k' Hc Hk'. apply in_app_or in Hc as [Hc|[<-|[]]].
      * exact (Hmin c k' Hc Hk').
      * congruence.
    + intros c Hc. apply in_app_or in Hc as [Hc|[<-|[]]]; auto.
Qed.

Lemma regex_loop_best_of patterns columns : forall seen best,
  best_of patterns seen best ->
  best_of patterns (seen ++ columns) (fold_left (regex_step patterns) columns best).
Proof.
  induction columns as [|col cols IH]; intros seen best Hb; simpl.
  - rewrite app_nil_r. exact Hb.
  - replace (seen ++ col :: cols) with ((seen ++ [col]) ++ cols)
      by (rewrite <- app_assoc; reflexivity).
    apply IH, regex_step_best_of, Hb.
Qed.

Lemma col_key_matches patterns col rank pat :
  nth_error patterns rank = Some pat ->
  re_search pat (norm_keep_symbols col) = true ->
  exists r, (r <= rank)%nat /\
    col_key patterns col
    = Some (r, (- Z.of_nat (length (norm_keep_symbols col)))%Z).
Proof.
  intros Hn Hm. unfold col_key.
  destruct (first_match patterns (norm_keep_symbols col) 0) as [r|] eqn:E.
  - exists r. split; [|reflexivity].
    destruct (first_match_Some _ _ _ _ E) as (_ & _ & Hbefore).
    destruct (Nat.le_gt_cases r rank) as [L|L]; [exact L|].
    rewrite (Hbefore rank pat) in Hm; [discriminate|lia|exact Hn].
  - apply nth_error_In in Hn.
    rewrite (first_match_None _ _ _ E pat Hn) in Hm. discriminate.
Qed.

(** C4: the regular-expression pass returns a header whose key
    [(rank, -len)] is the least among all matching header/pattern pairs:
    no matching pair has an earlier pattern, and none with the same
    pattern rank has a longer normal form.  It returns nothing exactly
    when no pattern matches any header. *)
Theorem find_regex_least_key (columns patterns : list str) :
  match find_regex columns patterns with
  | None =>
      forall col pat, In col columns -> In pat patterns ->
        re_search pat (norm_keep_symbols col) = false
  | Some h =>
      In h columns /\
      exists rank pat,
        nth_error patterns rank = Some pat /\
        re_search pat (norm_keep_symbols h) = true /\
        forall col rank' pat',
          In col columns -> nth_error patterns rank' = Some pat' ->
          re_search pat' (norm_keep_symbols col) = true ->
          key_ltb (rank', (- Z.of_nat (length (norm_keep_symbols col)))%Z)
                  (rank, (- Z.of_nat (length (norm_keep_symbols h)))%Z) = false /\
          (rank <= rank')%nat /\
          (rank' = rank ->
           (length (norm_keep_symbols col) <= length (norm_keep_symbols h))%nat)
  end.
Proof.
  unfold find_regex.
  pose proof (regex_loop_best_of patterns columns [] None) as Hb.
  simpl in Hb. specialize (Hb (fun _ F => match F with end)).
  destruct (fold_left (regex_step patterns) columns None) as [[k h]|]; simpl in *.
  - destruct Hb as (Hin & Hk & Hmin). split; [exact Hin|].
    unfold col_key in Hk.
    destruct (first_match patterns (norm_keep_symbols h) 0) as [rank|] eqn:E;
      [|discriminate].
    injection Hk as <-.
    destruct (first_match_Some _ _ _ _ E) as (_ & (pat & Hn & Hm) & _).
    rewrite Nat.sub_0_r in Hn.
    exists rank, pat. split; [exact Hn|]. split; [exact Hm|].
    intros col rank' pat' Hc Hn' Hm'.
    destruct (col_key_matches _ _ _ _ Hn' Hm') as (r & Hr & Hkc).
    pose proof (Hmin col _ Hc Hkc) as Hle.
    apply key_ltb_false in Hle. simpl in Hle. destruct Hle as [L1 L2].
    repeat split.
    + apply key_ltb_false. simpl. split; [lia|]. intros ->.
      assert (r = rank) as -> by lia. specialize (L2 eq_refl). lia.
    + lia.
    + intros ->. assert (r = rank) as -> by lia. specialize (L2 eq_refl). lia.
  - intros col pat Hc Hp. specialize (Hb col Hc). unfold col_key in Hb.
    destruct (first_match patterns (norm_keep_symbols col) 0) eqn:E; [discriminate|].
    exact (first_match_None _ _ _ E pat Hp).
Qed.
End RegexPass.

Example find_regex_ex :
  @find_regex ascii_runtime [u "Zip"; u "Home (Zip Code)"; u "The Zip Code"]
              [u "zip code"; u "zip"] = Some (u "The Zip Code").
Proof. vm_compute. reflexivity. Qed.

(** ** The exact pass and the resolver *)

Section ExactPass.
Context `{PyRuntime}.

Lemma find_exact_first columns names :
  match find_exact columns names with
  | Some h =>
      exists pre post, columns = pre ++ h :: post /\ is_alias names h /\
                       Forall (fun c => ~ is_alias names c) pre
  | None => Forall (fun c => ~ is_alias names c) columns
  end.
Proof.
  induction columns as [|col rest IH]; simpl; [constructor|].
  destruct (bool_decide_reflect (norm_exact col ∈ map norm_exact names)) as [Hm|Hm].
  - exists [], rest. repeat split; [exact Hm|constructor].
  - destruct (find_exact rest names) as [h|].
    + destruct IH as (pre & post & -> & Hh & Hpre).
      exists (col :: pre), post. repeat split; [exact Hh|].
      constructor; assumption.
    + constructor; assumption.
Qed.


End ExactPass.

Example resolve_ex :
  @resolve ascii_runtime House [u "Name"; u " house no. "; u "HOUSE #"]
  = Some (u " house no. ").
Proof. vm_compute. reflexivity. Qed.

(** ** The row loop *)

Lemma filter_mismatch_nil {A} (m : A -> bool) (l : list A) :
  List.filter (fun x => negb (m x)) l = [] <-> forallb m l = true.
Proof.
  induction l as [|x l IH]; simpl; [tauto|].
  destruct (m x); simpl; [exact IH|]. split; discriminate.
Qed.

Lemma before_slash_prefix s :
  exists rest, s = before_slash s ++ rest /\ (rest = [] \/ exists r, rest = 47 :: r).
Proof.
  induction s as [|c s (rest & IH & Hrest)]; simpl.
  - exists []. auto.
  - destruct (N.eqb_spec c 47) as [->|Hc].
    + exists (47 :: s). split; [reflexivity|]. right. eauto.
    + exists rest. split; [|exact Hrest]. simpl. f_equal. exact IH.
Qed.

Lemma before_slash_no_slash s : 47 ∉ before_slash s.
Proof.
  induction s as [|c s IH]; simpl; [apply not_elem_of_nil|].
  destruct (N.eqb_spec c 47) as [->|Hc]; [apply not_elem_of_nil|].
  apply not_elem_of_cons. split; [congruence|exact IH].
Qed.

Lemma before_slash_id s : 47 ∉ s -> before_slash s = s.
Proof.
  induction s as [|c s IH]; simpl; [reflexivity|].
  intros Hs. apply not_elem_of_cons in Hs as [Hc Hs].
  destruct (N.eqb_spec c 47) as [->|_]; [congruence|]. f_equal. apply IH, Hs.
Qed.

Lemma site_data_stored p col v :
  (col, v) ∈ site_data p -> stored_value p col = Some v.
Proof.
  unfold site_data. intros Hin.
  repeat (apply elem_of_cons in Hin as [[= -> ->]|Hin]; [reflexivity|]).
  apply elem_of_nil in Hin. destruct Hin.
Qed.

(** *** The update loops *)

Lemma update_fold_mutated row items : forall acc,
  (fold_left (Script2.update_step row) items acc).2
  = acc.2 ++ map fst (List.filter (mismatch2 row) items).
Proof.
  induction items as [|[field site_val] items IH]; intros acc; simpl.
  - rewrite app_nil_r. reflexivity.
  - rewrite IH. unfold mismatch2. simpl.
    destruct (bool_decide _); simpl; [reflexivity|].
    rewrite <- app_assoc. reflexivity.
Qed.

Lemma touched_step item items acc acc' after col :
  (acc' = acc \/ acc' = (<[item.1 := CStr item.2]> acc.1, acc.2 ++ [item.1])) ->
  (forall x, x ∈ acc'.2 -> x ∈ after.2) ->
  touched items acc' after col ->
  touched (item :: items) acc after col.
Proof.
  intros Hstep Hmono [[Hcell Hmut]|(Hm & v & Hv & Hcell)].
  - destruct Hstep as [->| ->]; [left; auto|]. simpl in *.
    destruct (decide (item.1 = col)) as [E|E].
    + right. split; [apply Hmut, elem_of_app; right; rewrite E; left|].
      exists item.2. split; [rewrite <- E; destruct item; left|].
      rewrite Hcell, E. apply lookup_insert_eq.
    + left. split; [rewrite Hcell; apply lookup_insert_ne, E|].
      rewrite Hmut, elem_of_app, list_elem_of_singleton. split; [|auto].
      intros [?|?]; [assumption|congruence].
  - right. split; [exact Hm|]. exists v. split; [right; exact Hv|exact Hcell].
Qed.

Lemma update_fold_touched row items : forall acc col,
  touched items acc (fold_left (Script2.update_step row) items acc) col.
Proof.
  induction items as [|item items IH]; intros acc col; simpl.
  - left. split; reflexivity.
  - eapply touched_step; [| |apply IH].
    + unfold Script2.update_step. destruct item as [field site_val].
      destruct (bool_decide _); [left; reflexivity|right; reflexivity].
    + intros x Hx. rewrite update_fold_mutated. apply elem_of_app. left. exact Hx.
Qed.

Lemma update_loop_mono row items : forall acc x,
  x ∈ acc.2 -> x ∈ (Script.update_loop row items acc).1.2.
Proof.
  induction items as [|[field site_val] items IH]; intros acc x Hx; simpl; [exact Hx|].
  destruct (row !! field); [|exact Hx].
  destruct (bool_decide _); apply IH; [exact Hx|].
  simpl. apply elem_of_app. left. exact Hx.
Qed.

Lemma update_loop_touched row items : forall acc col,
  touched items acc (Script.update_loop row items acc).1 col.
Proof.
  induction items as [|item items IH]; intros acc col; simpl.
  - left. split; reflexivity.
  - destruct item as [field site_val].
    destruct (row !! field) as [cell|].
    + destruct (bool_decide _).
      * eapply (touched_step (field, site_val)); [left; reflexivity| |apply IH].
        apply update_loop_mono.
      * eapply (touched_step (field, site_val)); [right; reflexivity| |apply IH].
        apply update_loop_mono.
    + left. split; reflexivity.
Qed.

(** With every column of [items] in the frame the loop of [script.py]
    runs to its end, and assigns exactly the fields that differ. *)
Lemma update_loop_complete row items : forall acc,
  Forall (fun item : str * str => is_Some (row !! item.1)) items ->
  exists r, Script.update_loop row items acc = (r, None) /\
            r.2 = acc.2 ++ map fst (List.filter (mismatch1 row) items).
Proof.
  induction items as [|[field site_val] items IH]; intros acc Hall; simpl.
  - exists acc. rewrite app_nil_r. auto.
  - inversion Hall as [|? ? [cell Hcell] Hrest]; subst. simpl in Hcell.
    unfold mismatch1. simpl. rewrite Hcell.
    destruct (bool_decide _); simpl.
    + apply IH, Hrest.
    + destruct (IH (<[field := CStr site_val]> acc.1, acc.2 ++ [field]) Hrest)
        as (r & -> & Hr).
      exists r. split; [reflexivity|]. rewrite Hr. simpl.
      rewrite <- app_assoc. reflexivity.
Qed.

Lemma OUTPUT_COLS_NoDup : NoDup OUTPUT_COLS.
Proof. apply (bool_decide_unpack _). vm_compute. reflexivity. Qed.

Lemma site_data_keys p : map fst (site_data p) = OUTPUT_COLS.
Proof. reflexivity. Qed.

Lemma site_data_key_In p col v : (col, v) ∈ site_data p -> col ∈ OUTPUT_COLS.
Proof.
  intros Hin. rewrite <- (site_data_keys p).
  apply list_elem_of_fmap. exists (col, v). auto.
Qed.

Lemma dict_value_unique (l : list (str * str)) k v v' :
  NoDup (map fst l) -> (k, v) ∈ l -> (k, v') ∈ l -> v = v'.
Proof.
  induction l as [|[k0 v0] l IH]; simpl; intros Hnd H1 H2.
  - apply elem_of_nil in H1. destruct H1.
  - apply NoDup_cons in Hnd as [Hk Hnd].
    apply elem_of_cons in H1 as [H1|H1]; apply elem_of_cons in H2 as [H2|H2].
    + congruence.
    + injection H1 as -> ->. destruct Hk.
      apply list_elem_of_fmap. exists (k0, v'). auto.
    + injection H2 as -> ->. destruct Hk.
      apply list_elem_of_fmap. exists (k0, v). auto.
    + exact (IH Hnd H1 H2).
Qed.

Lemma update_loop_app row l1 l2 : forall acc,
  Script.update_loop row (l1 ++ l2) acc
  = match Script.update_loop row l1 acc with
    | (r, None) => Script.update_loop row l2 r
    | res => res
    end.
Proof.
  induction l1 as [|[field v] l1 IH]; intros acc; simpl; [reflexivity|].
  destruct (row !! field); [|reflexivity].
  destruct (bool_decide _); apply IH.
Qed.

Lemma site_data_has_col p col :
  col ∈ OUTPUT_COLS -> exists v, (col, v) ∈ site_data p.
Proof.
  rewrite <- (site_data_keys p). intros Hc.
  apply list_elem_of_fmap in Hc as ([c v] & -> & Hitem). eauto.
Qed.

(** In the loop of [script2.py] a field whose cell equals the site's value
    stays, and one that differs is assigned that value. *)
Lemma update_fold_exact row (items : list (str * str)) col v :
  NoDup (map fst items) -> (col, v) ∈ items ->
  assigns row
    {| row_after := (fold_left (Script2.update_step row) items (row, [])).1;
       appended := [];
       mutated := (fold_left (Script2.update_step row) items (row, [])).2 |}
    col v (strip (safe_text (Script2.get row col)) = v).
Proof.
  intros Hnd Hin. unfold assigns. cbn [row_after mutated].
  pose proof (update_fold_touched row items (row, []) col) as Ht.
  pose proof (update_fold_mutated row items (row, [])) as Hm.
  cbn [snd app] in Hm.
  assert (Hmem : col ∈ (fold_left (Script2.update_step row) items (row, [])).2
                 <-> strip (safe_text (Script2.get row col)) <> v).
  { rewrite Hm. split.
    - intros Hc. apply list_elem_of_fmap in Hc as ([c v'] & Hc & Hitem).
      simpl in Hc. subst c.
      apply list_elem_of_In, filter_In in Hitem as [Hitem Hmis].
      apply list_elem_of_In in Hitem.
      rewrite (dict_value_unique items col v v' Hnd Hin Hitem).
      unfold mismatch2 in Hmis. cbn [fst snd] in Hmis.
      apply negb_true_iff, bool_decide_eq_false in Hmis. exact Hmis.
    - intros Hne. apply list_elem_of_fmap. exists (col, v). split; [reflexivity|].
      apply list_elem_of_In, filter_In. split; [apply list_elem_of_In, Hin|].
      unfold mismatch2. cbn [fst snd].
      apply negb_true_iff, bool_decide_eq_false. exact Hne. }
  destruct Ht as [[Hcell Hmut]|(Hc & v' & Hv' & Hcell)]; cbn [fst snd] in *.
  - split.
    + intros _. split; [exact Hcell|]. rewrite Hmut. apply not_elem_of_nil.
    + intros Hne. apply Hmem, Hmut, elem_of_nil in Hne. destruct Hne.
  - split.
    + intros Heq. apply Hmem in Hc. contradiction.
    + intros _. split; [|exact Hc]. rewrite Hcell. do 2 f_equal.
      exact (dict_value_unique items col v' v Hnd Hv' Hin).
Qed.

(** The same for the loop of [script.py], for a column that the loop
    reaches: it and the columns before it are in the frame. *)
Lemma update_loop_exact row (ipre ipost : list (str * str)) col v cell :
  NoDup (map fst (ipre ++ (col, v) :: ipost)) ->
  Forall (fun item : str * str => is_Some (row !! item.1)) ipre ->
  row !! col = Some cell ->
  let res := Script.update_loop row (ipre ++ (col, v) :: ipost) (row, []) in
  forall entries,
    assigns row
      {| row_after := res.1.1; appended := entries; mutated := res.1.2 |}
      col v (Script.excel_val cell v = v).
Proof.
  intros Hnd Hpre Hcell res entries. subst res. unfold assigns. cbn [row_after mutated].
  rewrite map_app in Hnd. cbn [map fst] in Hnd.
  apply NoDup_app in Hnd as (_ & Hdisj & Hnd2). apply NoDup_cons in Hnd2 as [Hpost _].
  assert (Hcol_pre : col ∉ map fst ipre)
    by (intros Hc; apply (Hdisj col Hc); left).
  destruct (update_loop_complete row ipre (row, []) Hpre) as (r & Hloop & Hr).
  cbn [snd app] in Hr.
  assert (Hr2 : col ∉ r.2).
  { rewrite Hr. intros Hc. apply Hcol_pre.
    apply list_elem_of_fmap in Hc as (item & -> & Hitem).
    apply list_elem_of_fmap. exists item. split; [reflexivity|].
    apply list_elem_of_In, filter_In in Hitem as [Hitem _].
    apply list_elem_of_In, Hitem. }
  assert (Hr1 : r.1 !! col = row !! col).
  { pose proof (update_loop_touched row ipre (row, []) col) as Ht.
    rewrite Hloop in Ht. destruct Ht as [[E _]|(Hc & _)]; [exact E|].
    destruct (Hr2 Hc). }
  rewrite update_loop_app, Hloop. cbn [Script.update_loop]. rewrite Hcell.
  assert (Hrest : forall acc,
            (Script.update_loop row ipost acc).1.1 !! col = acc.1 !! col /\
            (col ∈ (Script.update_loop row ipost acc).1.2 <-> col ∈ acc.2)).
  { intros acc. destruct (update_loop_touched row ipost acc col)
      as [HH|(_ & v' & Hv' & _)]; [exact HH|].
    destruct Hpost. apply list_elem_of_fmap. exists (col, v'). auto. }
  case_bool_decide as Heq.
  - destruct (Hrest r) as [E1 E2]. split; [|intros Hne; contradiction].
    intros _. split; [rewrite E1, Hr1; exact Hcell|]. rewrite E2. exact Hr2.
  - destruct (Hrest (<[col := CStr v]> r.1, r.2 ++ [col])) as [E1 E2].
    cbn [fst snd] in E1, E2. split; [intros HH; contradiction|].
    intros _. split; [rewrite E1; apply lookup_insert_eq|].
    apply E2, elem_of_app. right. left.
Qed.

(** *** What is stored (C9) *)

Lemma stored_ok_unchanged res row entries : stored_ok res row (unchanged row entries).
Proof. intros col. left. split; [apply not_elem_of_nil|reflexivity]. Qed.

Lemma stored_ok_touched p row acc entries :
  (forall col, touched (site_data p) (row, []) acc col) ->
  stored_ok (Loaded p) row
    {| row_after := acc.1; appended := entries; mutated := acc.2 |}.
Proof.
  intros Ht col. simpl.
  destruct (Ht col) as [[Hcell Hmut]|(Hm & v & Hv & Hcell)]; simpl in *.
  - left. split; [|exact Hcell]. rewrite Hmut. apply not_elem_of_nil.
  - right. split; [exact Hm|]. exists p, v.
    split; [reflexivity|]. split; [apply site_data_stored, Hv|exact Hcell].
Qed.

(** C9: what the loops store.  The value for ["ED"] is the scraped
    election-district text before its first ["/"] (all of it when there is
    none), with no ["/"] in it; the values of the other five columns are
    the scraped texts.  For a row that reaches the comparison, each
    district column whose own value differs from that value is assigned
    exactly it, and each one that is equal stays as it is; no column ever
    holds anything else.  In [script.py] this is so for every column that
    its loop reaches. *)
Theorem stored_district_values `{PyRuntime}
    (house_col street_col zip_col : str) (lookup : Lookup) (index : nat) (row : Row) :
  (forall p, exists ed rest,
      stored_value p (u "ED") = Some ed /\
      safe_get_text p (u "election_district") = ed ++ rest /\
      (rest = [] \/ exists r, rest = 47 :: r) /\
      (47 ∉ ed) /\
      (47 ∉ safe_get_text p (u "election_district") ->
       ed = safe_get_text p (u "election_district"))) /\
  (forall p col id, (col, id) ∈ ELEMENT_IDS -> col <> u "ED" ->
      stored_value p col = Some (safe_get_text p id)) /\
  stored_ok (site_result2 house_col street_col zip_col lookup row) row
            (Script2.process_row house_col street_col zip_col lookup index row) /\
  match Script.process_row lookup index row, site_result1 lookup row with
  | Some o, Some res => stored_ok res row o
  | None, None => True
  | _, _ => False
  end /\
  (forall p,
     scrapes2 house_col street_col zip_col lookup row p ->
     no_data (site_data p) = false ->
     forall col, col ∈ OUTPUT_COLS ->
       exists v,
         stored_value p col = Some v /\
         assigns row
           (Script2.process_row house_col street_col zip_col lookup index row)
           col v (strip (safe_text (Script2.get row col)) = v)) /\
  (forall p,
     scrapes1 lookup row p ->
     no_data (site_data p) = false ->
     forall pre col post cell,
       OUTPUT_COLS = pre ++ col :: post ->
       has_columns pre row ->
       row !! col = Some cell ->
       exists v o,
         stored_value p col = Some v /\
         Script.process_row lookup index row = Some o /\
         assigns row o col v (Script.excel_val cell v = v)).
Proof.
  split; [|split; [|split; [|split; [|split]]]].
  - intros p. destruct (before_slash_prefix (safe_get_text p (u "election_district")))
      as (rest & Hsplit & Hrest).
    exists (before_slash (safe_get_text p (u "election_district"))), rest.
    split; [reflexivity|]. split; [exact Hsplit|]. split; [exact Hrest|].
    split; [apply before_slash_no_slash|]. intros Hno. apply before_slash_id, Hno.
  - intros p col id Hin Hne. unfold ELEMENT_IDS in Hin.
    repeat (apply elem_of_cons in Hin as [[= -> ->]|Hin];
            [first [reflexivity | destruct (Hne eq_refl)]|]).
    apply elem_of_nil in Hin. destruct Hin.
  - unfold Script2.process_row, site_result2, address2.
    destruct (missing_address _ _ _); [apply stored_ok_unchanged|].
    destruct (lookup _ _ _) as [e|p]; [apply stored_ok_unchanged|].
    destruct (error_text p); [apply stored_ok_unchanged|].
    destruct (no_data _); [apply stored_ok_unchanged|].
    apply stored_ok_touched. intros col. apply update_fold_touched.
  - unfold Script.process_row, site_result1, address1.
    destruct (row !! u "HOUSE #") as [h|]; [|exact I].
    destruct (row !! u "STREET NAME") as [s|]; [|exact I].
    destruct (row !! u "ZIP CODE") as [z|]; [|exact I].
    destruct (missing_address _ _ _); [apply stored_ok_unchanged|].
    destruct (lookup _ _ _) as [e|p]; [apply stored_ok_unchanged|].
    destruct (error_text p); [apply stored_ok_unchanged|].
    destruct (no_data _); [apply stored_ok_unchanged|].
    pose proof (update_loop_touched row (site_data p) (row, [])) as Ht.
    destruct (Script.update_loop row (site_data p) (row, [])) as [acc [e|]];
      apply stored_ok_touched; exact Ht.
  - intros p (Hskip & Hres & Herr) Hdata col Hcol.
    destruct (site_data_has_col p col Hcol) as [v Hv].
    exists v. split; [apply site_data_stored, Hv|].
    unfold skipped2, site_result2, address2 in *. unfold Script2.process_row.
    rewrite Hskip, Hres, Herr. cbv zeta. rewrite Hdata.
    apply update_fold_exact; [|exact Hv].
    rewrite site_data_keys. apply OUTPUT_COLS_NoDup.
  - intros p (Hskip & Hres & Herr) Hdata pre col post cell Hcols Hpre Hcell.
    pose proof (site_data_keys p) as Hkeys. rewrite Hcols in Hkeys.
    apply fmap_app_inv in Hkeys as (ipre & rest & Hipre & Hrest & Hsd).
    symmetry in Hrest.
    apply fmap_cons_inv in Hrest as ([col' v] & ipost & Hc & Hipost & ->).
    simpl in Hc. subst col'.
    assert (Hpresent : Forall (fun item : str * str => is_Some (row !! item.1)) ipre).
    { unfold has_columns in Hpre. rewrite Hipre in Hpre.
      rewrite Forall_forall in Hpre. apply Forall_forall. intros item Hitem.
      apply Hpre. apply list_elem_of_fmap. exists item. auto. }
    assert (Hnd : NoDup (map fst (ipre ++ (col, v) :: ipost)))
      by (rewrite <- Hsd, site_data_keys; apply OUTPUT_COLS_NoDup).
    assert (Hv : (col, v) ∈ site_data p)
      by (rewrite Hsd; apply elem_of_app; right; left).
    exists v. unfold skipped1, site_result1, address1 in *.
    unfold Script.process_row.
    destruct (row !! u "HOUSE #") as [h|]; [|discriminate].
    destruct (row !! u "STREET NAME") as [s|]; [|discriminate].
    destruct (row !! u "ZIP CODE") as [z|]; [|discriminate].
    injection Hres as Hres. rewrite Hskip, Hres, Herr. cbv zeta. rewrite Hdata, Hsd.
    pose proof (update_loop_exact row ipre ipost col v cell Hnd Hpresent Hcell) as HA.
    cbv zeta in HA.
    destruct (Script.update_loop row (ipre ++ (col, v) :: ipost) (row, []))
      as [acc [e|]]; eexists;
      (split; [apply site_data_stored, Hv|]); (split; [reflexivity|]); apply HA.
Qed.

(** *** No data returned (C6) *)

Lemma scraped_empty_no_data p :
  Forall (fun t => t = []) (scraped p) -> no_data (site_data p) = true.
Proof.
  unfold scraped. cbn [map]. rewrite !Forall_cons.
  intros (H1 & H2 & H3 & H4 & H5 & H6 & _).
  unfold no_data, site_data. cbn [forallb snd].
  rewrite H1, H2, H3, H4, H5, H6. reflexivity.
Qed.

(** C6: a row whose six scraped district values are all empty gets
    exactly one entry, with the reason "No polling info returned", and the
    row of the frame stays as it was; in each script, for the values the
    script tests (those of [site_data]), which are empty in particular
    when the six scraped texts are. *)
Theorem empty_result_recorded `{PyRuntime}
    (house_col street_col zip_col : str) (lookup2 lookup1 : Lookup) (index : nat)
    (row2 row1 : Row) (p2 p1 : Page) :
  (scrapes2 house_col street_col zip_col lookup2 row2 p2 ->
   no_data (site_data p2) = true ->
   exists e,
     Script2.process_row house_col street_col zip_col lookup2 index row2
     = unchanged row2 [e] /\
     ir_reason e = u "No polling info returned" /\ ir_row e = index) /\
  (scrapes1 lookup1 row1 p1 ->
   no_data (site_data p1) = true ->
   exists e,
     Script.process_row lookup1 index row1 = Some (unchanged row1 [e]) /\
     ir_reason e = u "No polling info returned" /\ ir_row e = index) /\
  (forall p, Forall (fun t => t = []) (scraped p) -> no_data (site_data p) = true).
Proof.
  split; [|split].
  - intros (Hskip2 & Hres2 & Herr2) Hempty2.
    unfold skipped2, site_result2, address2 in *. unfold Script2.process_row.
    rewrite Hskip2, Hres2, Herr2. cbv zeta. rewrite Hempty2.
    eexists. split; [reflexivity|]. split; reflexivity.
  - intros (Hskip1 & Hres1 & Herr1) Hempty1.
    unfold skipped1, site_result1, address1 in *. unfold Script.process_row.
    destruct (row1 !! u "HOUSE #") as [h|]; [|discriminate].
    destruct (row1 !! u "STREET NAME") as [s|]; [|discriminate].
    destruct (row1 !! u "ZIP CODE") as [z|]; [|discriminate].
    injection Hres1 as Hres1.
    rewrite Hskip1, Hres1, Herr1. cbv zeta. rewrite Hempty1.
    eexists. split; [reflexivity|]. split; reflexivity.
  - exact scraped_empty_no_data.
Qed.

(** *** The outcomes of a row (C2) *)

Ltac verdicts :=
  unfold count_true, outcome_mutation, outcome_all_match, outcome_one_entry,
    outcome_skipped, unchanged;
  cbn [mutated appended row_after length];
  repeat case_bool_decide; try congruence; try lia;
  cbn [andb negb List.filter id length]; try reflexivity; try lia.

Lemma verdicts_compared (acc : Row * list str) (am : bool) :
  (acc.2 = [] <-> am = true) ->
  let o := {| row_after := acc.1; appended := []; mutated := acc.2 |} in
  count_true [outcome_mutation o; outcome_all_match am o;
              outcome_one_entry o; outcome_skipped false o] = 1%nat.
Proof.
  intros Ham o. subst o. destruct am.
  - assert (E : acc.2 = []) by (apply Ham; reflexivity). verdicts.
  - assert (E : acc.2 <> []) by (intros E; apply Ham in E; discriminate). verdicts.
Qed.

Lemma verdicts_entry row e am :
  let o := unchanged row [e] in
  count_true [outcome_mutation o; outcome_all_match am o;
              outcome_one_entry o; outcome_skipped false o] = 1%nat.
Proof. intros o. subst o. destruct am; verdicts. Qed.

Lemma verdicts_skipped row :
  let o := unchanged row [] in
  count_true [outcome_mutation o; outcome_all_match false o;
              outcome_one_entry o; outcome_skipped true o] = 1%nat.
Proof. intros o. subst o. verdicts. Qed.

Lemma all_match2_mutated row p :
  map fst (List.filter (mismatch2 row) (site_data p)) = []
  <-> Script2.all_match row p = true.
Proof.
  unfold Script2.all_match. rewrite <- filter_mismatch_nil.
  fold (mismatch2 row). split; [|intros ->; reflexivity].
  destruct (List.filter _ _); [reflexivity|discriminate].
Qed.

Lemma all_match1_mutated row p :
  has_columns OUTPUT_COLS row ->
  map fst (List.filter (mismatch1 row) (site_data p)) = []
  <-> Script.all_match row p = true.
Proof.
  intros Hcols. unfold Script.all_match. rewrite <- filter_mismatch_nil.
  assert (Hext : forall item, item ∈ site_data p ->
            mismatch1 row item
            = negb match row !! item.1 with
                   | Some cell => bool_decide (Script.excel_val cell item.2 = item.2)
                   | None => false
                   end).
  { intros item Hin. unfold mismatch1.
    destruct (row !! item.1) eqn:E; [reflexivity|].
    exfalso. unfold has_columns, OUTPUT_COLS in Hcols. unfold site_data in Hin.
    rewrite !Forall_cons in Hcols.
    destruct Hcols as (H1 & H2 & H3 & H4 & H5 & H6 & _).
    repeat (apply elem_of_cons in Hin as [->|Hin];
            [cbn [fst] in E; rewrite E in *;
             match goal with Hx : is_Some None |- _ => destruct Hx; discriminate end|]).
    apply elem_of_nil in Hin. exact Hin. }
  rewrite (filter_ext_in (mismatch1 row) _ (site_data p))
    by (intros a Ha; apply Hext, list_elem_of_In, Ha).
  split; [|intros ->; reflexivity].
  destruct (List.filter _ _); [reflexivity|discriminate].
Qed.

Lemma has_columns_items row p :
  has_columns OUTPUT_COLS row ->
  Forall (fun item : str * str => is_Some (row !! item.1)) (site_data p).
Proof.
  unfold has_columns, OUTPUT_COLS, site_data. rewrite !Forall_cons.
  intros (H1 & H2 & H3 & H4 & H5 & H6 & _). repeat split; try assumption.
  constructor.
Qed.

(** C2, as the code has it: a row ends in exactly one of four ways: (a) a
    field assigned, (b) nothing assigned after all six fields compared
    equal, (c) one entry appended, (d) skipped for missing address data.
    This holds of every row in [script2.py], and in [script.py] of every
    row of a frame that has the six district columns; in both a row gets
    at most one entry.  ([script.py] processes rows only of frames that
    have its three address columns.) *)
Theorem row_outcome_exclusive `{PyRuntime}
    (house_col street_col zip_col : str) (lookup : Lookup) (index : nat)
    (row2 row1 : Row) :
  (let o := Script2.process_row house_col street_col zip_col lookup index row2 in
   count_true
     [outcome_mutation o;
      outcome_all_match (matched2 house_col street_col zip_col lookup row2) o;
      outcome_one_entry o;
      outcome_skipped (skipped2 house_col street_col zip_col row2) o] = 1%nat /\
   (length (appended o) <= 1)%nat) /\
  (has_columns ADDRESS_COLS row1 ->
   exists o,
     Script.process_row lookup index row1 = Some o /\
     (length (appended o) <= 1)%nat /\
     (has_columns OUTPUT_COLS row1 ->
      count_true
        [outcome_mutation o;
         outcome_all_match (matched1 lookup row1) o;
         outcome_one_entry o;
         outcome_skipped (skipped1 row1) o] = 1%nat)).
Proof.
  split.
  - unfold Script2.process_row, matched2, skipped2, site_result2, address2.
    destruct (missing_address _ _ _);
      [split; [apply verdicts_skipped|simpl; lia]|].
    destruct (lookup _ _ _) as [e|p];
      [split; [apply verdicts_entry|simpl; lia]|].
    destruct (error_text p);
      [split; [apply verdicts_entry|simpl; lia]|].
    destruct (no_data _);
      [split; [apply verdicts_entry|simpl; lia]|].
    split; [|simpl; lia]. cbn [negb andb].
    apply verdicts_compared. rewrite update_fold_mutated. simpl.
    apply all_match2_mutated.
  - intros Haddr.
    unfold has_columns, ADDRESS_COLS in Haddr. rewrite !Forall_cons in Haddr.
    destruct Haddr as ([h Hh] & [s Hs] & [z Hz] & _).
    unfold Script.process_row, matched1, skipped1, site_result1, address1.
    rewrite Hh, Hs, Hz. eexists. split; [reflexivity|].
    destruct (missing_address _ _ _);
      [split; [simpl; lia|intros _; apply verdicts_skipped]|].
    destruct (lookup _ _ _) as [e|p];
      [split; [simpl; lia|intros _; apply verdicts_entry]|].
    destruct (error_text p);
      [split; [simpl; lia|intros _; apply verdicts_entry]|].
    destruct (no_data _);
      [split; [simpl; lia|intros _; apply verdicts_entry]|].
    split.
    + destruct (Script.update_loop row1 (site_data p) (row1, [])) as [acc [e|]];
        simpl; lia.
    + intros Hout.
      destruct (update_loop_complete row1 (site_data p) (row1, [])
                  (has_columns_items row1 p Hout)) as (r & -> & Hr).
      cbn [negb andb].
      apply verdicts_compared. rewrite Hr. simpl.
      apply all_match1_mutated, Hout.
Qed.

(** *** Concrete rows *)

Example process_row2_sample :
  let o := @Script2.process_row ascii_runtime (u "HOUSE #") (u "STREET NAME")
             (u "ZIP CODE") (sample_lookup sample_page) 7 sample_row in
  mutated o = [u "ED"; u "Cong D"] /\ appended o = [] /\
  row_after o !! u "ED" = Some (CStr (u "012")) /\
  row_after o !! u "Cong D" = Some (CStr (u "10")) /\
  row_after o !! u "AD" = Some (CStr (u "49")) /\
  address2 (H := ascii_runtime) (u "HOUSE #") (u "STREET NAME") (u "ZIP CODE") sample_row
  = (u "1876", u "19TH AVE", u "11204").
Proof. vm_compute. repeat split; reflexivity. Qed.

(** In [script.py] a frame without the ["ED"] column gets its ["AD"]
    corrected and then the row recorded as invalid: the loop stops at the
    column it cannot read. *)
Lemma process_row1_missing_column :
  exists o e,
    Script.process_row (sample_lookup sample_page) 7 no_ed_row = Some o /\
    mutated o = [u "AD"] /\
    row_after o !! u "AD" = Some (CStr (u "49")) /\
    appended o = [e] /\ ir_reason e = u "Script error: 'ED'".
Proof. eexists. eexists. vm_compute. repeat split; reflexivity. Qed.

(** C2 as stated leaves out the skipped row: nothing is assigned, nothing
    is recorded, and no field was compared.  Here the house number is
    blank, and the site would have returned districts that differ from
    the row's. *)
Lemma skipped_row_outside_three_outcomes :
  let o := @Script2.process_row ascii_runtime (u "HOUSE #") (u "STREET NAME")
             (u "ZIP CODE") (sample_lookup sample_page) 7 blank_house_row in
  let matched := matched2 (H := ascii_runtime) (u "HOUSE #") (u "STREET NAME")
                   (u "ZIP CODE") (sample_lookup sample_page) blank_house_row in
  count_true [outcome_mutation o; outcome_all_match matched o; outcome_one_entry o]
    <> 1%nat /\
  outcome_mutation o = false /\
  outcome_all_match matched o = false /\
  outcome_one_entry o = false /\
  Script2.all_match blank_house_row sample_page = false /\
  o = unchanged blank_house_row [].
Proof. vm_compute. repeat split; try reflexivity. discriminate. Qed.

(** A skipped row is left alone and not recorded, whatever the runtime
    tables and the site. *)
Lemma skipped_row_unchanged `{PyRuntime}
    (house_col street_col zip_col : str) (lookup : Lookup) (index : nat) (row : Row) :
  skipped2 house_col street_col zip_col row = true ->
  Script2.process_row house_col street_col zip_col lookup index row
  = unchanged row [].
Proof.
  unfold skipped2, address2, Script2.process_row. intros ->. reflexivity.
Qed.

Lemma row_outcome_exclusive_witness :
  has_columns ADDRESS_COLS sample_row /\
  has_columns OUTPUT_COLS sample_row /\
  (let o := @Script2.process_row ascii_runtime (u "HOUSE #") (u "STREET NAME")
              (u "ZIP CODE") (sample_lookup sample_page) 7 blank_house_row in
   count_true
     [outcome_mutation o;
      outcome_all_match
        (matched2 (H := ascii_runtime) (u "HOUSE #") (u "STREET NAME") (u "ZIP CODE")
                  (sample_lookup sample_page) blank_house_row) o;
      outcome_one_entry o;
      outcome_skipped
        (skipped2 (H := ascii_runtime) (u "HOUSE #") (u "STREET NAME") (u "ZIP CODE")
                  blank_house_row) o] = 1%nat /\
   (length (appended o) <= 1)%nat) /\
  (exists o,
     Script.process_row (sample_lookup sample_page) 7 sample_row = Some o /\
     (length (appended o) <= 1)%nat /\
     count_true
       [outcome_mutation o;
        outcome_all_match (matched1 (sample_lookup sample_page) sample_row) o;
        outcome_one_entry o;
        outcome_skipped (skipped1 sample_row) o] = 1%nat).
Proof.
  assert (Ha : has_columns ADDRESS_COLS sample_row)
    by (repeat constructor; eexists; vm_compute; reflexivity).
  assert (Ho : has_columns OUTPUT_COLS sample_row)
    by (repeat constructor; eexists; vm_compute; reflexivity).
  split; [exact Ha|]. split; [exact Ho|].
  destruct (row_outcome_exclusive (H := ascii_runtime) (u "HOUSE #") (u "STREET NAME")
              (u "ZIP CODE") (sample_lookup sample_page) 7 blank_house_row sample_row)
    as [H2 H1].
  split; [exact H2|].
  destruct (H1 Ha) as (o & Ho1 & Hlen & Hcount).
  exists o. split; [exact Ho1|]. split; [exact Hlen|]. exact (Hcount Ho).
Defined.

Lemma empty_result_recorded_witness :
  scrapes2 (H := ascii_runtime) (u "HOUSE #") (u "STREET NAME") (u "ZIP CODE")
           (sample_lookup slash_page) sample_row slash_page /\
  no_data (site_data slash_page) = true /\
  scrapes1 (sample_lookup empty_page) sample_row empty_page /\
  no_data (site_data empty_page) = true /\
  (exists e,
     @Script2.process_row ascii_runtime (u "HOUSE #") (u "STREET NAME") (u "ZIP CODE")
       (sample_lookup slash_page) 7 sample_row
     = unchanged sample_row [e] /\
     ir_reason e = u "No polling info returned" /\ ir_row e = 7%nat) /\
  (exists e,
     Script.process_row (sample_lookup empty_page) 7 sample_row
     = Some (unchanged sample_row [e]) /\
     ir_reason e = u "No polling info returned" /\ ir_row e = 7%nat).
Proof.
  assert (H2 : scrapes2 (H := ascii_runtime) (u "HOUSE #") (u "STREET NAME")
                 (u "ZIP CODE") (sample_lookup slash_page) sample_row slash_page)
    by (repeat split; vm_compute; reflexivity).
  assert (He2 : no_data (site_data slash_page) = true)
    by (vm_compute; reflexivity).
  assert (H1 : scrapes1 (sample_lookup empty_page) sample_row empty_page)
    by (repeat split; vm_compute; reflexivity).
  assert (He1 : no_data (site_data empty_page) = true)
    by (vm_compute; reflexivity).
  split; [exact H2|]. split; [exact He2|]. split; [exact H1|]. split; [exact He1|].
  destruct (empty_result_recorded (H := ascii_runtime) (u "HOUSE #") (u "STREET NAME")
              (u "ZIP CODE") (sample_lookup slash_page) (sample_lookup empty_page) 7
              sample_row sample_row slash_page empty_page) as (C2 & C1 & _).
  split; [exact (C2 H2 He2)|exact (C1 H1 He1)].
Defined.

Lemma stored_district_values_witness :
  scrapes2 (H := ascii_runtime) (u "HOUSE #") (u "STREET NAME") (u "ZIP CODE")
           (sample_lookup sample_page) sample_row sample_page /\
  scrapes1 (sample_lookup sample_page) sample_row sample_page /\
  no_data (site_data sample_page) = false /\
  (exists v,
     stored_value sample_page (u "ED") = Some v /\
     assigns sample_row
       (@Script2.process_row ascii_runtime (u "HOUSE #") (u "STREET NAME")
          (u "ZIP CODE") (sample_lookup sample_page) 7 sample_row)
       (u "ED") v
       (strip (safe_text (Script2.get sample_row (u "ED"))) = v)) /\
  (exists v o,
     stored_value sample_page (u "ED") = Some v /\
     Script.process_row (sample_lookup sample_page) 7 sample_row = Some o /\
     assigns sample_row o (u "ED") v (Script.excel_val (CStr (u "11")) v = v)).
Proof.
  assert (H2 : scrapes2 (H := ascii_runtime) (u "HOUSE #") (u "STREET NAME")
                 (u "ZIP CODE") (sample_lookup sample_page) sample_row sample_page)
    by (repeat split; vm_compute; reflexivity).
  assert (H1 : scrapes1 (sample_lookup sample_page) sample_row sample_page)
    by (repeat split; vm_compute; reflexivity).
  assert (Hd : no_data (site_data sample_page) = false)
    by (vm_compute; reflexivity).
  split; [exact H2|]. split; [exact H1|]. split; [exact Hd|].
  destruct (stored_district_values (H := ascii_runtime) (u "HOUSE #") (u "STREET NAME")
              (u "ZIP CODE") (sample_lookup sample_page) 7 sample_row)
    as (_ & _ & _ & _ & A2 & A1).
  split.
  - apply (A2 sample_page H2 Hd (u "ED")).
    apply (bool_decide_unpack _). vm_compute. reflexivity.
  - apply (A1 sample_page H1 Hd [u "AD"] (u "ED")
               [u "Cong D"; u "SD"; u "Council D"; u "JD"] (CStr (u "11"))).
    + reflexivity.
    + repeat constructor. eexists. vm_compute. reflexivity.
    + vm_compute. reflexivity.
Defined.

(** ** The output path *)

Example splitext_root_ex :
  splitext_root [92; 47] (u "C:\data\voters.v2.xlsx") = u "C:\data\voters.v2" /\
  splitext_root [47] (u "/home/me/.hidden") = u "/home/me/.hidden" /\
  splitext_root [47] (u "/home/a.b/list") = u "/home/a.b/list" /\
  splitext_root [47] (u "list.xlsx") = u "list".
Proof. repeat split; vm_compute; reflexivity. Qed.

Lemma str_of_uint_inj d d' : str_of_uint d = str_of_uint d' -> d = d'.
Proof.
  revert d'. induction d as [|d IH|d IH|d IH|d IH|d IH|d IH|d IH|d IH|d IH|d IH];
    intros d' E; destruct d'; simpl in E;
    try discriminate; try reflexivity;
    f_equal; apply IH; congruence.
Qed.

Lemma str_of_N_inj i j : str_of_N i = str_of_N j -> i = j.
Proof.
  unfold str_of_N. intros E. apply str_of_uint_inj in E.
  rewrite <- (DecimalN.Unsigned.of_to i), <- (DecimalN.Unsigned.of_to j), E.
  reflexivity.
Qed.

Lemma candidate_inj base_name suffix n m :
  candidate base_name suffix n = candidate base_name suffix m -> n = m.
Proof.
  unfold candidate, first_candidate, numbered_candidate.
  destruct n as [|n], m as [|m]; intros E; try reflexivity;
    repeat apply app_inv_head in E.
  - discriminate.
  - discriminate.
  - apply app_inv_tail in E. apply str_of_N_inj in E. lia.
Qed.

Lemma candidates_NoDup base_name suffix n :
  NoDup (map (candidate base_name suffix) (seq 0 n)).
Proof.
  apply NoDup_fmap_2; [|apply NoDup_seq].
  intros a b. apply candidate_inj.
Qed.

(** Not all of the first [size files + 1] names exist. *)
Lemma candidates_not_all_exist (files : gset str) base_name suffix :
  ~ (forall j, (j < S (size files))%nat -> candidate base_name suffix j ∈ files).
Proof.
  intros Hall.
  set (l := map (candidate base_name suffix) (seq 0 (S (size files)))).
  assert (Hsub : (list_to_set l : gset str) ⊆ files).
  { intros x Hx. apply elem_of_list_to_set in Hx.
    apply list_elem_of_fmap in Hx as (j & -> & Hj).
    apply elem_of_seq in Hj. apply Hall. lia. }
  apply subseteq_size in Hsub.
  rewrite size_list_to_set in Hsub by apply candidates_NoDup.
  unfold l in Hsub. rewrite length_map, length_seq in Hsub. lia.
Qed.

Lemma path_loop_spec (files : gset str) base_name suffix : forall fuel k,
  match path_loop fuel files base_name suffix
          (candidate base_name suffix k) (N.of_nat (S k)) with
  | Some p =>
      exists n, p = candidate base_name suffix n /\ (k <= n < k + fuel)%nat /\
                (p ∉ files) /\
                forall j, (k <= j < n)%nat -> candidate base_name suffix j ∈ files
  | None =>
      forall j, (k <= j < k + fuel)%nat -> candidate base_name suffix j ∈ files
  end.
Proof.
  induction fuel as [|fuel IH]; intros k; simpl.
  - intros j Hj. lia.
  - destruct (bool_decide_reflect (candidate base_name suffix k ∈ files)) as [Hin|Hout].
    + specialize (IH (S k)).
      replace (N.of_nat (S k) + 1) with (N.of_nat (S (S k))) by lia.
      change (numbered_candidate base_name suffix (N.of_nat (S k)))
        with (candidate base_name suffix (S k)).
      destruct (path_loop fuel files base_name suffix _ _) as [p|].
      * destruct IH as (n & -> & Hn & Hfree & Hbefore).
        exists n. split; [reflexivity|]. split; [lia|]. split; [exact Hfree|].
        intros j Hj. destruct (decide (j = k)) as [->|]; [exact Hin|].
        apply Hbefore. lia.
      * intros j Hj. destruct (decide (j = k)) as [->|]; [exact Hin|].
        apply IH. lia.
    + exists k. split; [reflexivity|]. split; [lia|]. split; [exact Hout|].
      intros j Hj. lia.
Qed.

(** C8: the chosen path is the first name that does not exist in the
    sequence base+suffix, base+suffix(1), base+suffix(2), ...; the loop
    finds it within [size files + 1] tests, whatever the files are, and an
    existing name is never returned. *)
Theorem output_path_first_free (seps : list N) (suffix : str)
    (files : gset str) (file_path : str) :
  let base_name := splitext_root seps file_path in
  exists n p,
    p = candidate base_name suffix n /\
    (p ∉ files) /\
    (forall j, (j < n)%nat -> candidate base_name suffix j ∈ files) /\
    (forall fuel, (size files < fuel)%nat ->
       output_path fuel seps suffix files file_path = Some p) /\
    (first_candidate base_name suffix ∉ files ->
       p = first_candidate base_name suffix) /\
    (first_candidate base_name suffix ∈ files ->
     numbered_candidate base_name suffix 1 ∉ files ->
       p = numbered_candidate base_name suffix 1).
Proof.
  intros base_name.
  pose proof (path_loop_spec files base_name suffix (S (size files)) 0) as Hs.
  destruct (path_loop (S (size files)) files base_name suffix _ _) as [p|] eqn:E.
  - destruct Hs as (n & -> & Hn & Hfree & Hbefore).
    exists n, (candidate base_name suffix n).
    split; [reflexivity|]. split; [exact Hfree|].
    split; [intros j Hj; apply Hbefore; lia|].
    split; [|split].
    + intros fuel Hfuel. unfold output_path. fold base_name.
      pose proof (path_loop_spec files base_name suffix fuel 0) as Hf.
      change (first_candidate base_name suffix) with (candidate base_name suffix 0).
      change 1 with (N.of_nat 1).
      destruct (path_loop fuel files base_name suffix _ _) as [q|].
      * destruct Hf as (m & -> & Hm & Hfree' & Hbefore').
        f_equal. f_equal.
        destruct (Nat.lt_trichotomy m n) as [L|[L|L]]; [|exact L|].
        -- destruct Hfree'. apply Hbefore. lia.
        -- destruct Hfree. apply Hbefore'. lia.
      * exfalso. apply (candidates_not_all_exist files base_name suffix).
        intros j Hj. apply Hf. lia.
    + intros H0. destruct n as [|n]; [reflexivity|].
      destruct H0. apply (Hbefore 0%nat). lia.
    + intros H0 H1. destruct n as [|[|n]].
      * destruct (Hfree H0).
      * reflexivity.
      * destruct H1. apply (Hbefore 1%nat). lia.
  - exfalso. apply (candidates_not_all_exist files base_name suffix).
    intros j Hj. apply Hs. lia.
Qed.

Example output_path_ex :
  output_path 3 [92; 47] suffix2
    {[ u "C:\in\list_with_districts.xlsx"; u "C:\in\list_with_districts(1).xlsx" ]}
    (u "C:\in\list.xlsx")
  = Some (u "C:\in\list_with_districts(2).xlsx").
Proof. vm_compute. reflexivity. Qed.

(** ** Further properties of the normalisers *)

Lemma strip_nil_iff s : strip s = [] <-> forallb isspace s = true.
Proof.
  assert (Hl : forall t, lstrip t = [] <-> forallb isspace t = true).
  { induction t as [|c t IH]; simpl; [tauto|].
    destruct (isspace c); simpl; [exact IH|]. split; discriminate. }
  unfold strip, rstrip. split.
  - intros E. apply (f_equal (@rev N)) in E. rewrite rev_involutive in E. simpl in E.
    apply Hl in E. rewrite forallb_forall in E.
    assert (Hws : forall c, In c (lstrip s) -> isspace c = true)
      by (intros c Hc; apply E, in_rev; rewrite rev_involutive; exact Hc).
    pose proof (lstrip_head_ok s) as Hh.
    destruct (lstrip s) as [|c r] eqn:El; [apply Hl, El|].
    simpl in Hh. rewrite (Hws c (or_introl eq_refl)) in Hh. discriminate.
  - intros E. apply Hl in E. rewrite E. reflexivity.
Qed.

Lemma collapse_ws_nil_iff s : collapse_ws s = [] <-> s = [].
Proof.
  unfold collapse_ws. destruct s as [|c s]; simpl; [tauto|].
  destruct (isspace c); split; discriminate.
Qed.

Lemma sub_ws_true_head_ok s : head_ok (sub_ws true s).
Proof.
  induction s as [|c s IH]; simpl; [exact I|].
  destruct (isspace c) eqn:E; [exact IH|]. simpl. exact E.
Qed.

Lemma sub_ws_single_spaced b s : single_spaced (sub_ws b s) = true.
Proof.
  revert b. induction s as [|c s IH]; intros b; simpl; [reflexivity|].
  destruct (isspace c) eqn:E.
  - destruct b; [apply IH|]. simpl. rewrite (IH true).
    pose proof (sub_ws_true_head_ok s) as Hh.
    destruct (sub_ws true s) as [|d r]; [reflexivity|].
    simpl in Hh. rewrite Hh. reflexivity.
  - simpl. rewrite E, (IH false). reflexivity.
Qed.

Lemma str_of_uint_digits d :
  Forall (fun c => 48 <= c <= 57) (str_of_uint d).
Proof. induction d; simpl; constructor; try lia; assumption. Qed.

Lemma four_digits_length n : 1000 <= n <= 9999 -> length (str_of_N n) = 4%nat.
Proof.
  intros Hn.
  assert (Hall : forallb (fun k => (length (str_of_N (N.of_nat k)) =? 4)%nat)
                         (seq 1000 (90 * 100)) = true) by (vm_compute; reflexivity).
  rewrite forallb_forall in Hall.
  specialize (Hall (N.to_nat n)). rewrite N2Nat.id in Hall.
  apply Nat.eqb_eq, Hall, in_seq. lia.
Qed.

Section NormalizerEdges.
Context `{PyRuntime}.

Lemma str_upper_nil_iff s : str_upper s = [] <-> s = [].
Proof.
  split; [|intros ->; reflexivity].
  destruct s as [|c s]; [reflexivity|]. simpl. intros E.
  apply app_eq_nil in E as [E _].
  destruct (isspace c) eqn:Ec.
  - rewrite (toupper_isspace c Ec) in E. discriminate.
  - destruct (toupper_nonspace c Ec) as [Hne _]. destruct (Hne E).
Qed.

Lemma keep_digits_decimal_text d :
  Forall (fun c => 48 <= c <= 57) d -> keep_digits d = d.
Proof.
  intros Hd. apply keep_digits_id.
  eapply Forall_impl; [exact Hd|]. intros c Hc. simpl in Hc.
  rewrite isdecimal_ascii by lia.
  apply andb_true_iff. split; apply N.leb_le; lia.
Qed.

(** X1: what makes a cell count as missing address data.  The zip is
    empty exactly when the text of the cell has no decimal digit, the
    street exactly when the text is whitespace only, and the house number
    exactly when the trimmed text is empty or is [".0"]. *)
Theorem cleaned_empty_iff (x : Cell) :
  (clean_zip x = [] <-> keep_digits (safe_text x) = []) /\
  (clean_street x = [] <-> forallb isspace (safe_text x) = true) /\
  (clean_house x = [] <->
   forallb isspace (safe_text x) = true \/ strip (safe_text x) = u ".0").
Proof.
  split; [|split].
  - rewrite clean_zip_eq_spec. unfold clean_zip_spec.
    destruct (keep_digits (safe_text x)) as [|a [|b [|c [|d [|e r]]]]]; simpl;
      split; (reflexivity || discriminate).
  - unfold clean_street. rewrite collapse_ws_nil_iff, str_upper_nil_iff.
    apply strip_nil_iff.
  - rewrite clean_house_eq_spec. unfold clean_house_spec.
    rewrite <- collapse_strip_suffix_dot0, collapse_ws_nil_iff, <- strip_nil_iff.
    set (t := strip (safe_text x)).
    destruct (endswith [46; 48] t) eqn:E.
    + apply endswith_spec in E as [p Hp]. rewrite Hp, strip_suffix_dot0_app.
      split.
      * intros ->. right. reflexivity.
      * intros [E|E]; [destruct p; discriminate|].
        change (u ".0") with ([] ++ [46; 48]) in E.
        apply app_inv_tail in E. exact E.
    + rewrite (strip_suffix_dot0_other t (endswith_false _ _ E)). split; [auto|].
      intros [E'|E']; [exact E'|]. rewrite E' in E. discriminate.
Qed.

(** X2: the shape of the normalised street and house number.  The street
    has no whitespace at either end, its only whitespace are single
    spaces, and upper-casing it again changes nothing; the house number
    starts with no whitespace and has single spaces only. *)
Theorem cleaned_text_shape (x : Cell) :
  trimmed (clean_street x) /\
  single_spaced (clean_street x) = true /\
  str_upper (clean_street x) = clean_street x /\
  head_ok (clean_house x) /\
  single_spaced (clean_house x) = true.
Proof.
  split; [|split; [|split; [|split]]].
  - apply collapse_ws_trimmed, str_upper_trimmed, strip_trimmed.
  - apply sub_ws_single_spaced.
  - apply str_upper_id. apply sub_ws_Forall; [|apply str_upper_stable].
    apply toupper_isspace. reflexivity.
  - apply clean_house_head_ok.
  - apply sub_ws_single_spaced.
Qed.

(** X3: a zip code that lost its leading zero to numeric coercion gets it
    back: for an integer cell, or a float cell with an integer value,
    between 1000 and 9999 the result is ["0"] and the four digits. *)
Theorem clean_zip_restores_zero (z : Z) (r : str) :
  (1000 <= z <= 9999)%Z ->
  clean_zip (CInt z) = 48 :: str_of_Z z /\
  clean_zip (CFloat (Some z) r) = 48 :: str_of_Z z /\
  length (clean_zip (CInt z)) = 5%nat.
Proof.
  intros Hz.
  assert (Hd : keep_digits (str_of_Z z) = str_of_Z z).
  { destruct z as [|p|p]; try lia. apply keep_digits_decimal_text, str_of_uint_digits. }
  assert (Hl : length (str_of_Z z) = 4%nat).
  { destruct z as [|p|p]; try lia. apply four_digits_length. lia. }
  assert (E : forall x, safe_text x = str_of_Z z -> clean_zip x = 48 :: str_of_Z z).
  { intros x Hx. rewrite clean_zip_eq_spec. unfold clean_zip_spec.
    rewrite Hx, Hd, Hl. reflexivity. }
  split; [apply E; reflexivity|]. split; [apply E; reflexivity|].
  rewrite (E (CInt z) eq_refl). simpl. rewrite Hl. reflexivity.
Qed.
End NormalizerEdges.

Lemma clean_zip_restores_zero_witness :
  (1000 <= 1120 <= 9999)%Z /\
  @clean_zip ascii_runtime (CInt 1120) = u "01120" /\
  @clean_zip ascii_runtime (CFloat (Some 1120%Z) (u "1120.0")) = u "01120".
Proof.
  split; [lia|].
  destruct (clean_zip_restores_zero (H := ascii_runtime) 1120 (u "1120.0")
              ltac:(lia)) as (E1 & E2 & _).
  split; [exact E1|exact E2].
Defined.

(** ** Further properties of the column resolver *)

Lemma closes_replace_slash s : closes (replace_slash s) = closes s.
Proof.
  induction s as [|c s IH]; simpl; [reflexivity|].
  destruct (N.eqb_spec c 47) as [->|Hc]; [exact IH|].
  rewrite IH. reflexivity.
Qed.

Lemma has_group_replace_slash s : has_group (replace_slash s) = has_group s.
Proof.
  induction s as [|c s IH]; simpl; [reflexivity|].
  rewrite closes_replace_slash, IH.
  destruct (N.eqb_spec c 47) as [->|Hc]; reflexivity.
Qed.

Lemma replace_slash_no_slash s : 47 ∉ replace_slash s.
Proof.
  induction s as [|c s IH]; simpl; [apply not_elem_of_nil|].
  apply not_elem_of_cons. split; [|exact IH].
  destruct (N.eqb_spec c 47) as [->|Hc]; [discriminate|congruence].
Qed.

Lemma closes_sub_parens s : closes s = false -> closes (sub_parens false s) = false.
Proof.
  induction s as [|c s IH]; simpl; [reflexivity|].
  destruct (N.eqb_spec c 41) as [->|H41]; [discriminate|].
  destruct (N.eqb_spec c 10) as [->|H10]; [reflexivity|].
  intros Hs. rewrite Hs, andb_false_r. simpl.
  destruct (N.eqb_spec c 41); [contradiction|].
  destruct (N.eqb_spec c 10); [contradiction|]. apply IH, Hs.
Qed.

Lemma has_group_sub_parens s : forall skipping,
  has_group (sub_parens skipping s) = false.
Proof.
  induction s as [|c s IH]; intros skipping; simpl; [destruct skipping; reflexivity|].
  destruct skipping.
  - destruct (c =? 41); apply IH.
  - destruct (N.eqb_spec c 40) as [->|H40]; simpl.
    + destruct (closes s) eqn:E; [apply IH|]. simpl.
      rewrite (closes_sub_parens s E), (IH false). reflexivity.
    + destruct (N.eqb_spec c 40); [contradiction|]. simpl. apply IH.
Qed.

Lemma sub_parens_no_group s : has_group s = false -> sub_parens false s = s.
Proof.
  induction s as [|c s IH]; simpl; [reflexivity|].
  intros Hg. apply orb_false_iff in Hg as [Hc Hs].
  rewrite Hc, (IH Hs). reflexivity.
Qed.

Lemma key_ltb_true a b :
  key_ltb a b = true <-> (a.1 < b.1)%nat \/ (a.1 = b.1 /\ (a.2 < b.2)%Z).
Proof.
  unfold key_ltb.
  rewrite orb_true_iff, andb_true_iff, Nat.ltb_lt, Nat.eqb_eq, Z.ltb_lt. tauto.
Qed.

Lemma key_lt_le_trans a b c :
  key_ltb a b = true -> key_ltb c b = false -> key_ltb a c = true.
Proof. rewrite !key_ltb_true, key_ltb_false. intros [?|[? ?]] [? ?]; lia. Qed.

Lemma key_lt_trans a b c :
  key_ltb a b = true -> key_ltb b c = true -> key_ltb a c = true.
Proof. rewrite !key_ltb_true. lia. Qed.

Lemma key_le_antisym (a b : nat * Z) :
  key_ltb a b = false -> key_ltb b a = false -> a = b.
Proof.
  rewrite !key_ltb_false. destruct a as [a1 a2], b as [b1 b2]. simpl.
  intros [? ?] [? ?]. assert (a1 = b1) by lia. subst. f_equal. lia.
Qed.

Section ResolverFacts.
Context `{PyRuntime}.

(** X4: the normal form that the patterns are matched against has no
    ["/"] and no parenthesised group left on a line; removing the groups
    once more changes nothing. *)
Theorem norm_keep_symbols_clean (s : str) :
  (47 ∉ norm_keep_symbols s) /\
  has_group (norm_keep_symbols s) = false /\
  (forall t, sub_parens false (sub_parens false t) = sub_parens false t).
Proof.
  unfold norm_keep_symbols. split; [apply replace_slash_no_slash|]. split.
  - rewrite has_group_replace_slash. apply has_group_sub_parens.
  - intros t. apply sub_parens_no_group, has_group_sub_parens.
Qed.

Lemma regex_step_first_best patterns seen best col :
  first_best patterns seen best ->
  first_best patterns (seen ++ [col]) (regex_step patterns best col).
Proof.
  intros Hb. unfold regex_step.
  destruct (first_match patterns (norm_keep_symbols col) 0) as [rank|] eqn:E.
  - assert (Hk : col_key patterns col
                 = Some (rank, (- Z.of_nat (length (norm_keep_symbols col)))%Z))
      by (unfold col_key; rewrite E; reflexivity).
    destruct best as [[kb hb]|]; simpl in Hb.
    + destruct Hb as (pre & post & -> & Hkb & Hpre & Hpost).
      destruct (key_ltb _ kb) eqn:Elt; simpl.
      * exists (pre ++ hb :: post), []. split; [reflexivity|]. split; [exact Hk|].
        split; [|intros c k' []].
        intros c k' Hc Hk'. apply in_app_or in Hc as [Hc|[<-|Hc]].
        -- eapply key_lt_trans; [exact Elt|]. exact (Hpre c k' Hc Hk').
        -- rewrite Hkb in Hk'. injection Hk' as <-. exact Elt.
        -- eapply key_lt_le_trans; [exact Elt|]. exact (Hpost c k' Hc Hk').
      * exists pre, (post ++ [col]).
        split; [rewrite <- app_assoc; reflexivity|]. split; [exact Hkb|].
        split; [exact Hpre|].
        intros c k' Hc Hk'. apply in_app_or in Hc as [Hc|[<-|[]]].
        -- exact (Hpost c k' Hc Hk').
        -- rewrite Hk in Hk'. injection Hk' as <-. exact Elt.
    + simpl. exists seen, []. split; [reflexivity|]. split; [exact Hk|].
      split; [|intros c k' []].
      intros c k' Hc Hk'. rewrite (Hb c Hc) in Hk'. discriminate.
  - assert (Hk : col_key patterns col = None)
      by (unfold col_key; rewrite E; reflexivity).
    destruct best as [[kb hb]|]; simpl in *.
    + destruct Hb as (pre & post & -> & Hkb & Hpre & Hpost).
      exists pre, (post ++ [col]).
      split; [rewrite <- app_assoc; reflexivity|]. split; [exact Hkb|].
      split; [exact Hpre|].
      intros c k' Hc Hk'. apply in_app_or in Hc as [Hc|[<-|[]]].
      * exact (Hpost c k' Hc Hk').
      * congruence.
    + intros c Hc. apply in_app_or in Hc as [Hc|[<-|[]]]; auto.
Qed.

Lemma regex_loop_first_best patterns columns : forall seen best,
  first_best patterns seen best ->
  first_best patterns (seen ++ columns) (fold_left (regex_step patterns) columns best).
Proof.
  induction columns as [|col cols IH]; intros seen best Hb; simpl.
  - rewrite app_nil_r. exact Hb.
  - replace (seen ++ col :: cols) with ((seen ++ [col]) ++ cols)
      by (rewrite <- app_assoc; reflexivity).
    apply IH, regex_step_first_best, Hb.
Qed.

(** X5: ties go to the first header.  Every header before the one that
    [find_regex] returns has a strictly greater key (or matches no
    pattern), and no header after it has a smaller one. *)
Theorem find_regex_first_of_least (columns patterns : list str) :
  match find_regex columns patterns with
  | Some h =>
      exists pre post k,
        columns = pre ++ h :: post /\ col_key patterns h = Some k /\
        (forall col k', In col pre -> col_key patterns col = Some k' ->
                        key_ltb k k' = true) /\
        (forall col k', In col post -> col_key patterns col = Some k' ->
                        key_ltb k' k = false)
  | None => forall col, In col columns -> col_key patterns col = None
  end.
Proof.
  unfold find_regex.
  pose proof (regex_loop_first_best patterns columns [] None) as Hb.
  simpl in Hb. specialize (Hb (fun _ F => match F with end)).
  destruct (fold_left (regex_step patterns) columns None) as [[k h]|]; simpl in *.
  - destruct Hb as (pre & post & Hc & Hk & Hpre & Hpost).
    exists pre, post, k. auto.
  - exact Hb.
Qed.

Lemma result_key_least patterns columns :
  match result_key columns patterns with
  | Some k =>
      (exists h, In h columns /\ col_key patterns h = Some k) /\
      forall col k', In col columns -> col_key patterns col = Some k' ->
                     key_ltb k' k = false
  | None => forall col, In col columns -> col_key patterns col = None
  end.
Proof.
  unfold result_key, find_regex.
  pose proof (regex_loop_best_of patterns columns [] None) as Hb.
  simpl in Hb. specialize (Hb (fun _ F => match F with end)).
  destruct (fold_left (regex_step patterns) columns None) as [[k h]|]; simpl in *.
  - destruct Hb as (Hin & Hk & Hmin). rewrite Hk. split; [eauto|exact Hmin].
  - exact Hb.
Qed.

(** X6: the order of the headers matters for ties only: two frames with
    the same headers in different orders get headers of the same key. *)
Theorem find_regex_key_order_free (columns columns' patterns : list str) :
  Permutation columns columns' ->
  result_key columns patterns = result_key columns' patterns.
Proof.
  intros Hp.
  pose proof (result_key_least patterns columns) as H1.
  pose proof (result_key_least patterns columns') as H2.
  destruct (result_key columns patterns) as [k|],
           (result_key columns' patterns) as [k'|]; [| | |reflexivity].
  - destruct H1 as ((h & Hh & Hk) & Hmin), H2 as ((h' & Hh' & Hk') & Hmin').
    f_equal. apply key_le_antisym.
    + apply (Hmin' h k); [eapply Permutation_in; eassumption|exact Hk].
    + apply (Hmin h' k'); [|exact Hk'].
      eapply Permutation_in; [symmetry; exact Hp|exact Hh'].
  - destruct H1 as ((h & Hh & Hk) & _).
    rewrite (H2 h) in Hk; [discriminate|]. eapply Permutation_in; eassumption.
  - destruct H2 as ((h' & Hh' & Hk') & _).
    rewrite (H1 h') in Hk'; [discriminate|].
    eapply Permutation_in; [symmetry; exact Hp|exact Hh'].
Qed.

Lemma find_regex_In columns patterns h :
  find_regex columns patterns = Some h -> In h columns.
Proof.
  unfold find_regex.
  pose proof (regex_loop_best_of patterns columns [] None) as Hb.
  simpl in Hb. specialize (Hb (fun _ F => match F with end)).
  destruct (fold_left (regex_step patterns) columns None) as [[k h']|];
    [|discriminate].
  intros [= <-]. apply Hb.
Qed.

Lemma resolve_In f columns h : resolve f columns = Some h -> In h columns.
Proof.
  unfold resolve, py_or.
  pose proof (find_exact_first columns (EXACT_NAMES f)) as Hf.
  destruct (find_exact columns (EXACT_NAMES f)) as [[|c e]|].
  - apply find_regex_In.
  - intros [= <-]. destruct Hf as (pre & post & -> & _).
    apply in_or_app. right. left. reflexivity.
  - apply find_regex_In.
Qed.

(** X7: column detection either stops the script, when one of the three
    fields resolves to nothing or to an empty header, or yields three
    headers that are the resolver's results, are not empty and are
    headers of the frame. *)
Theorem detect_columns_sound (columns : list str) :
  match detect_columns columns with
  | Some (h, s, z) =>
      resolve House columns = Some h /\ resolve Street columns = Some s /\
      resolve Zip columns = Some z /\
      h <> [] /\ s <> [] /\ z <> [] /\
      In h columns /\ In s columns /\ In z columns
  | None => exists f, truthy (resolve f columns) = false
  end.
Proof.
  unfold detect_columns. cbn [forallb].
  destruct (resolve House columns) as [[|c1 h]|] eqn:E1;
    try (exists House; rewrite E1; reflexivity).
  destruct (resolve Street columns) as [[|c2 s]|] eqn:E2;
    try (exists Street; rewrite E2; reflexivity).
  destruct (resolve Zip columns) as [[|c3 z]|] eqn:E3;
    try (exists Zip; rewrite E3; reflexivity).
  simpl. repeat split; try discriminate; eapply resolve_In; eassumption.
Qed.
End ResolverFacts.

Lemma find_regex_key_order_free_witness :
  Permutation [u "Zip"; u "The Zip Code"] [u "The Zip Code"; u "Zip"] /\
  result_key (H := ascii_runtime) [u "Zip"; u "The Zip Code"] [u "zip code"; u "zip"]
  = result_key (H := ascii_runtime) [u "The Zip Code"; u "Zip"] [u "zip code"; u "zip"].
Proof.
  assert (Hp : Permutation [u "Zip"; u "The Zip Code"] [u "The Zip Code"; u "Zip"])
    by apply perm_swap.
  split; [exact Hp|].
  exact (find_regex_key_order_free (H := ascii_runtime) _ _ [u "zip code"; u "zip"] Hp).
Defined.

(** ** Further properties of the row loop *)

Lemma ensure_fold_lookup (cols : list str) : forall (row : Row) col,
  fold_left (fun r c => match r !! c with
                        | Some _ => r
                        | None => <[c := CStr []]> r
                        end) cols row !! col
  = match row !! col with
    | Some cell => Some cell
    | None => if bool_decide (col ∈ cols) then Some (CStr []) else None
    end.
Proof.
  induction cols as [|c cols IH]; intros row col; simpl.
  - destruct (row !! col); reflexivity.
  - rewrite IH. destruct (row !! c) as [cell|] eqn:Ec.
    + destruct (row !! col) as [cell'|] eqn:Ecol; [reflexivity|].
      assert (c <> col) by congruence.
      rewrite (bool_decide_ext (col ∈ c :: cols) (col ∈ cols)); [reflexivity|].
      rewrite elem_of_cons. split; [intros [E|E]; [congruence|exact E]|auto].
    + destruct (decide (c = col)) as [->|Hne].
      * rewrite lookup_insert_eq, Ec.
        rewrite bool_decide_eq_true_2 by left. reflexivity.
      * rewrite lookup_insert_ne by exact Hne.
        destruct (row !! col); [reflexivity|].
        rewrite (bool_decide_ext (col ∈ c :: cols) (col ∈ cols)); [reflexivity|].
        rewrite elem_of_cons. split; [intros [E|E]; [congruence|exact E]|auto].
Qed.

(** X8: after "ensure output columns exist" the row has all six district
    columns; cells that were there are kept, a column that was missing
    holds the empty string, no other column appears, and doing it again
    changes nothing. *)
Theorem ensure_output_cols_spec (row : Row) :
  has_columns OUTPUT_COLS (Script2.ensure_output_cols row) /\
  (forall col cell, row !! col = Some cell ->
     Script2.ensure_output_cols row !! col = Some cell) /\
  (forall col, row !! col = None ->
     Script2.ensure_output_cols row !! col
     = if bool_decide (col ∈ OUTPUT_COLS) then Some (CStr []) else None) /\
  Script2.ensure_output_cols (Script2.ensure_output_cols row)
  = Script2.ensure_output_cols row.
Proof.
  unfold Script2.ensure_output_cols.
  split; [|split; [|split]].
  - apply List.Forall_forall. intros col Hcol. rewrite ensure_fold_lookup.
    destruct (row !! col); [eauto|].
    rewrite bool_decide_eq_true_2 by (apply list_elem_of_In, Hcol). eauto.
  - intros col cell Hc. rewrite ensure_fold_lookup, Hc. reflexivity.
  - intros col Hc. rewrite ensure_fold_lookup, Hc. reflexivity.
  - apply map_eq. intros col. rewrite !ensure_fold_lookup.
    destruct (row !! col); [reflexivity|].
    destruct (bool_decide (col ∈ OUTPUT_COLS)); reflexivity.
Qed.

Lemma before_slash_nil_iff s :
  before_slash s = [] <-> s = [] \/ exists r, s = 47 :: r.
Proof.
  destruct s as [|c s]; simpl; [split; auto|].
  destruct (N.eqb_spec c 47) as [->|Hc].
  - split; [eauto|reflexivity].
  - split; [discriminate|]. intros [E|[r E]]; [discriminate|congruence].
Qed.

(** X9: "no polling information" is what the loop sees exactly when the
    five other texts are empty and the election-district text is empty or
    starts with ["/"]. *)
Theorem no_data_iff (p : Page) :
  no_data (site_data p) = true <->
  (safe_get_text p (u "assembly_district") = [] /\
   safe_get_text p (u "congress_district") = [] /\
   safe_get_text p (u "senate_district") = [] /\
   safe_get_text p (u "council_district") = [] /\
   safe_get_text p (u "judicial_district") = []) /\
  (safe_get_text p (u "election_district") = [] \/
   exists r, safe_get_text p (u "election_district") = 47 :: r).
Proof.
  unfold no_data, site_data. cbn [forallb snd].
  rewrite !andb_true_iff, !bool_decide_eq_true, before_slash_nil_iff. tauto.
Qed.

Lemma process_row2_stored `{PyRuntime} hc sc zc lookup index row :
  stored_ok (site_result2 hc sc zc lookup row) row
            (Script2.process_row hc sc zc lookup index row).
Proof.
  unfold Script2.process_row, site_result2, address2.
  destruct (missing_address _ _ _); [apply stored_ok_unchanged|].
  destruct (lookup _ _ _) as [e|p]; [apply stored_ok_unchanged|].
  destruct (error_text p); [apply stored_ok_unchanged|].
  destruct (no_data _); [apply stored_ok_unchanged|].
  apply stored_ok_touched. intros col. apply update_fold_touched.
Qed.

Lemma process_row1_stored lookup index row :
  match Script.process_row lookup index row with
  | Some o => exists res, stored_ok res row o
  | None => True
  end.
Proof.
  unfold Script.process_row.
  destruct (row !! u "HOUSE #") as [h|]; [|exact I].
  destruct (row !! u "STREET NAME") as [s|]; [|exact I].
  destruct (row !! u "ZIP CODE") as [z|]; [|exact I].
  exists (lookup (strip (py_str h)) (strip (py_str s)) (strip (py_str z))).
  destruct (missing_address _ _ _); [apply stored_ok_unchanged|].
  destruct (lookup _ _ _) as [e|p]; [apply stored_ok_unchanged|].
  destruct (error_text p); [apply stored_ok_unchanged|].
  destruct (no_data _); [apply stored_ok_unchanged|].
  pose proof (update_loop_touched row (site_data p) (row, [])) as Ht.
  destruct (Script.update_loop row (site_data p) (row, [])) as [acc [e|]];
    apply stored_ok_touched; exact Ht.
Qed.

Lemma stored_value_col p col v : stored_value p col = Some v -> col ∈ OUTPUT_COLS.
Proof.
  unfold stored_value. destruct (dict_get ELEMENT_IDS col) as [id|] eqn:E; [|discriminate].
  intros _. unfold ELEMENT_IDS in E. simpl in E.
  repeat (case_bool_decide; [subst col; apply list_elem_of_In; simpl; tauto|]).
  discriminate.
Qed.

Lemma stored_ok_outside res row o col :
  stored_ok res row o -> col ∉ OUTPUT_COLS -> row_after o !! col = row !! col.
Proof.
  intros Hs Hcol. destruct (Hs col) as [[_ E]|(_ & p & v & _ & Hv & _)]; [exact E|].
  destruct Hcol. eapply stored_value_col, Hv.
Qed.

Lemma stored_ok_mutated res row o col :
  stored_ok res row o -> col ∈ mutated o -> col ∈ OUTPUT_COLS.
Proof.
  intros Hs Hcol. destruct (Hs col) as [[Hn _]|(_ & p & v & _ & Hv & _)].
  - destruct (Hn Hcol).
  - eapply stored_value_col, Hv.
Qed.

(** X10: only district columns are ever written.  In both scripts every
    assigned column is one of the six, each cell of any other column (the
    address among them) is after the turn what it was before, and no
    column is lost. *)
Theorem only_district_columns_written `{PyRuntime}
    (house_col street_col zip_col : str) (lookup : Lookup) (index : nat) (row : Row) :
  let o2 := Script2.process_row house_col street_col zip_col lookup index row in
  (forall col, col ∈ mutated o2 -> col ∈ OUTPUT_COLS) /\
  (forall col, col ∉ OUTPUT_COLS -> row_after o2 !! col = row !! col) /\
  (forall col, is_Some (row !! col) -> is_Some (row_after o2 !! col)) /\
  match Script.process_row lookup index row with
  | Some o1 =>
      (forall col, col ∈ mutated o1 -> col ∈ OUTPUT_COLS) /\
      (forall col, col ∉ OUTPUT_COLS -> row_after o1 !! col = row !! col) /\
      (forall col, is_Some (row !! col) -> is_Some (row_after o1 !! col))
  | None => True
  end.
Proof.
  assert (Hkeep : forall res o, stored_ok res row o ->
            forall col, is_Some (row !! col) -> is_Some (row_after o !! col)).
  { intros res o Hs col Hc.
    destruct (Hs col) as [[_ ->]|(_ & p & v & _ & _ & ->)]; eauto. }
  intros o2. pose proof (process_row2_stored house_col street_col zip_col
                           lookup index row) as Hs2. fold o2 in Hs2.
  split; [intros col; eapply stored_ok_mutated, Hs2|].
  split; [intros col; eapply stored_ok_outside, Hs2|].
  split; [eapply Hkeep, Hs2|].
  pose proof (process_row1_stored lookup index row) as Hs1.
  destruct (Script.process_row lookup index row) as [o1|]; [|exact I].
  destruct Hs1 as [res Hs1].
  split; [intros col; eapply stored_ok_mutated, Hs1|].
  split; [intros col; eapply stored_ok_outside, Hs1|].
  eapply Hkeep, Hs1.
Qed.

Lemma process_row_with `{PyRuntime} hc sc zc lookup index row :
  Script2.process_row hc sc zc lookup index row
  = process_with lookup (address2 hc sc zc row) index row.
Proof. reflexivity. Qed.

Lemma missing_address_false h s z :
  missing_address h s z = false -> h <> [] /\ s <> [] /\ z <> [].
Proof.
  unfold missing_address. rewrite !orb_false_iff, !bool_decide_eq_false. tauto.
Qed.

Lemma error_text_nonempty p msg : error_text p = Some msg -> msg <> [].
Proof.
  unfold error_text. destruct (div_message p) as [t|]; [|discriminate].
  destruct (strip t); [discriminate|]. intros [= <-]. discriminate.
Qed.

(** X11: a row that is recorded is left alone, and what is recorded is
    complete.  In [script2.py] an entry is appended only to a row that is
    not changed; every entry carries the index of its row, the cleaned
    address with none of its three parts empty, and a reason that is not
    empty. *)
Theorem recorded_rows_untouched `{PyRuntime}
    (house_col street_col zip_col : str) (lookup : Lookup) (index : nat) (row : Row) :
  let o := Script2.process_row house_col street_col zip_col lookup index row in
  (appended o = [] \/ (row_after o = row /\ mutated o = [])) /\
  Forall (entry_ok (address2 house_col street_col zip_col row) index) (appended o).
Proof.
  rewrite process_row_with.
  destruct (address2 house_col street_col zip_col row) as [[h s] z].
  unfold process_with.
  destruct (missing_address h s z) eqn:Em; [split; [left; reflexivity|constructor]|].
  apply missing_address_false in Em as (Hh & Hs & Hz).
  assert (Hentry : forall reason, reason <> [] ->
            entry_ok (h, s, z) index
              {| ir_row := index; ir_house := h; ir_street := s;
                 ir_zip := z; ir_reason := reason |})
    by (intros reason Hr; repeat split; assumption).
  destruct (lookup h s z) as [e|p].
  { split; [right; split; reflexivity|]. repeat constructor; try assumption.
    discriminate. }
  destruct (error_text p) as [msg|] eqn:Ee.
  { split; [right; split; reflexivity|]. constructor; [|constructor].
    apply Hentry. eapply error_text_nonempty, Ee. }
  destruct (no_data (site_data p)).
  { split; [right; split; reflexivity|]. constructor; [|constructor].
    apply Hentry. discriminate. }
  split; [left; reflexivity|constructor].
Qed.

(** *** Running a row again *)

Lemma update_fold_stable (row' : Row) items : forall l,
  (forall field v, (field, v) ∈ items ->
     row' !! field = Some (CStr v) \/
     strip (safe_text (Script2.get row' field)) = v) ->
  (fold_left (Script2.update_step row') items (row', l)).1 = row'.
Proof.
  induction items as [|[field v] items IH]; intros l Hitems; simpl; [reflexivity|].
  case_bool_decide as Heq.
  - apply IH. intros f w Hin. apply Hitems. right. exact Hin.
  - simpl. destruct (Hitems field v) as [Hcell|Hv]; [left| |contradiction].
    rewrite (insert_id _ _ _ Hcell).
    apply IH. intros f w Hin. apply Hitems. right. exact Hin.
Qed.

Lemma update_fold_settled row (items : list (str * str)) :
  NoDup (map fst items) ->
  let row' := (fold_left (Script2.update_step row) items (row, [])).1 in
  forall field v, (field, v) ∈ items ->
    row' !! field = Some (CStr v) \/
    strip (safe_text (Script2.get row' field)) = v.
Proof.
  intros Hnd row' field v Hin. subst row'.
  pose proof (update_fold_touched row items (row, []) field) as Ht.
  pose proof (update_fold_mutated row items (row, [])) as Hm.
  cbn [snd app] in Hm.
  destruct Ht as [[Hcell Hmut]|(_ & v' & Hv' & Hcell)]; cbn [fst snd] in *.
  - right. unfold Script2.get. rewrite Hcell.
    destruct (bool_decide (strip (safe_text (Script2.get row field)) = v)) eqn:E.
    + apply bool_decide_eq_true in E. exact E.
    + exfalso. apply (not_elem_of_nil field), Hmut. rewrite Hm.
      apply list_elem_of_fmap. exists (field, v). split; [reflexivity|].
      apply list_elem_of_In, filter_In. split; [apply list_elem_of_In, Hin|].
      unfold mismatch2. cbn [fst snd]. rewrite E. reflexivity.
  - left. rewrite Hcell. do 2 f_equal.
    eapply dict_value_unique; [exact Hnd|exact Hv'|exact Hin].
Qed.

(** X12: processing a row a second time, with the site answering as
    before, leaves the frame as the first turn left it and records the
    same; the address columns must not be district columns. *)
Theorem process_row_again `{PyRuntime}
    (house_col street_col zip_col : str) (lookup : Lookup) (index : nat) (row : Row) :
  house_col ∉ OUTPUT_COLS -> street_col ∉ OUTPUT_COLS -> zip_col ∉ OUTPUT_COLS ->
  let o := Script2.process_row house_col street_col zip_col lookup index row in
  let o' := Script2.process_row house_col street_col zip_col lookup index
              (row_after o) in
  row_after o' = row_after o /\ appended o' = appended o.
Proof.
  intros Hh Hs Hz o o'.
  pose proof (process_row2_stored house_col street_col zip_col lookup index row)
    as Hst. fold o in Hst.
  assert (Haddr : address2 house_col street_col zip_col (row_after o)
                  = address2 house_col street_col zip_col row).
  { unfold address2, Script2.get.
    rewrite !(stored_ok_outside _ _ _ _ Hst) by assumption. reflexivity. }
  subst o'. rewrite (process_row_with _ _ _ _ _ (row_after o)), Haddr.
  subst o. rewrite process_row_with.
  destruct (address2 house_col street_col zip_col row) as [[h s] z].
  unfold process_with.
  destruct (missing_address h s z); [split; reflexivity|].
  destruct (lookup h s z) as [e|p]; [split; reflexivity|].
  destruct (error_text p); [split; reflexivity|].
  destruct (no_data (site_data p)); [split; reflexivity|].
  cbn [row_after appended]. split; [|reflexivity].
  apply update_fold_stable, update_fold_settled.
  rewrite site_data_keys. apply OUTPUT_COLS_NoDup.
Qed.

Lemma process_row_again_witness :
  (u "HOUSE #" ∉ OUTPUT_COLS) /\ (u "STREET NAME" ∉ OUTPUT_COLS) /\
  (u "ZIP CODE" ∉ OUTPUT_COLS) /\
  let o := @Script2.process_row ascii_runtime (u "HOUSE #") (u "STREET NAME")
             (u "ZIP CODE") (sample_lookup sample_page) 7 sample_row in
  let o' := @Script2.process_row ascii_runtime (u "HOUSE #") (u "STREET NAME")
              (u "ZIP CODE") (sample_lookup sample_page) 7 (row_after o) in
  row_after o' = row_after o /\ appended o' = appended o.
Proof.
  assert (H1 : u "HOUSE #" ∉ OUTPUT_COLS)
    by (apply (bool_decide_unpack _); vm_compute; reflexivity).
  assert (H2 : u "STREET NAME" ∉ OUTPUT_COLS)
    by (apply (bool_decide_unpack _); vm_compute; reflexivity).
  assert (H3 : u "ZIP CODE" ∉ OUTPUT_COLS)
    by (apply (bool_decide_unpack _); vm_compute; reflexivity).
  split; [exact H1|]. split; [exact H2|]. split; [exact H3|].
  exact (process_row_again (H := ascii_runtime) (u "HOUSE #") (u "STREET NAME")
           (u "ZIP CODE") (sample_lookup sample_page) 7 sample_row H1 H2 H3).
Defined.

(** *** The loop over the frame *)

Lemma process_row2_entries `{PyRuntime} hc sc zc lookup index row :
  appended (Script2.process_row hc sc zc lookup index row) = [] \/
  exists e, appended (Script2.process_row hc sc zc lookup index row) = [e] /\
            ir_row e = index.
Proof.
  unfold Script2.process_row.
  destruct (missing_address _ _ _); [left; reflexivity|].
  destruct (lookup _ _ _) as [e|p]; [right; eexists; split; reflexivity|].
  destruct (error_text p); [right; eexists; split; reflexivity|].
  destruct (no_data _); [right; eexists; split; reflexivity|].
  left. reflexivity.
Qed.

Section WholeLoop.
Context `{PyRuntime}.
Variables house_col street_col zip_col : str.
Variable lookup : Lookup.

Local Abbreviation turn :=
  (Script2.process_row house_col street_col zip_col lookup).

Lemma process_rows_unfold rows : forall index invalid,
  Script2.process_rows house_col street_col zip_col lookup index rows invalid
  = (imap (fun i row => row_after (turn (index + i) row)) rows,
     invalid ++ concat (imap (fun i row => appended (turn (index + i) row)) rows)).
Proof.
  induction rows as [|row rows IH]; intros index invalid; simpl.
  - rewrite app_nil_r. reflexivity.
  - rewrite IH, Nat.add_0_r. f_equal.
    + f_equal. apply imap_ext. intros i x _. simpl. f_equal. f_equal. lia.
    + rewrite <- app_assoc. do 2 f_equal. f_equal.
      apply imap_ext. intros i x _. simpl. do 2 f_equal. lia.
Qed.

Lemma new_entries_ordered rows : forall index,
  let new := concat (imap (fun i row => appended (turn (index + i) row)) rows) in
  (length new <= length rows)%nat /\
  Forall (fun e => (index <= ir_row e < index + length rows)%nat) new /\
  StronglySorted lt (map ir_row new).
Proof.
  induction rows as [|row rows IH]; intros index; simpl.
  - repeat split; constructor.
  - destruct (IH (S index)) as (Hlen & Hrange & Hsorted).
    rewrite (imap_ext _ (fun i row => appended (turn (S index + i) row)))
      by (intros i x _; simpl; do 2 f_equal; lia).
    set (rest := concat (imap (fun i row => appended (turn (S index + i) row)) rows)) in *.
    rewrite Nat.add_0_r.
    assert (Hrange' : Forall (fun e => (index <= ir_row e < index + S (length rows))%nat) rest)
      by (eapply Forall_impl; [exact Hrange|]; simpl; intros e He; lia).
    destruct (process_row2_entries house_col street_col zip_col lookup index row)
      as [E|(e & E & He)]; rewrite E; simpl.
    + repeat split; [lia|exact Hrange'|exact Hsorted].
    + repeat split; [lia|constructor; [lia|exact Hrange']|].
      constructor; [exact Hsorted|].
      apply Forall_fmap. eapply Forall_impl; [exact Hrange|].
      simpl. intros e' He'. lia.
Qed.

(** X13: the loop over the frame treats each row on its own, in order.
    The frame afterwards is, row by row, the result of the turn on that
    row; [invalid_rows] only grows, by the entries of the turns in row
    order; there are at most as many new entries as rows, and their row
    numbers increase strictly and lie within the rows processed. *)
Theorem process_rows_spec (index : nat) (rows : list Row) (invalid : list InvalidRow) :
  let res := Script2.process_rows house_col street_col zip_col lookup index rows
               invalid in
  let new := concat (imap (fun i row => appended (turn (index + i) row)) rows) in
  res.1 = imap (fun i row => row_after (turn (index + i) row)) rows /\
  res.2 = invalid ++ new /\
  length res.1 = length rows /\
  (length new <= length rows)%nat /\
  Forall (fun e => (index <= ir_row e < index + length rows)%nat) new /\
  StronglySorted lt (map ir_row new).
Proof.
  intros res new. subst res. rewrite process_rows_unfold. cbn [fst snd].
  split; [reflexivity|]. split; [reflexivity|].
  split; [apply length_imap|]. apply new_entries_ordered.
Qed.
End WholeLoop.

(** ** Further properties of [script.py] and of blank cells *)

Lemma str_of_Z_not_blank z : forallb isspace (str_of_Z z) = false.
Proof.
  destruct z as [|p|p]; [reflexivity| |reflexivity].
  unfold str_of_Z, str_of_N. simpl N.to_uint.
  pose proof (DecimalPos.Unsigned.to_uint_nonnil p) as Hn.
  destruct (Pos.to_uint p); try contradiction; reflexivity.
Qed.

(** X14: in [script.py] a district column that the frame lacks stops the
    comparison at that column.  When the site returned data, the row gets
    one entry whose reason names the first missing column; the columns
    before it may have been assigned, that column and those after it are
    as they were. *)
Theorem script1_missing_column (lookup : Lookup) (index : nat) (row : Row)
    (p : Page) (pre : list str) (col : str) (post : list str) :
  scrapes1 lookup row p ->
  no_data (site_data p) = false ->
  OUTPUT_COLS = pre ++ col :: post ->
  has_columns pre row ->
  row !! col = None ->
  exists o e,
    Script.process_row lookup index row = Some o /\
    appended o = [e] /\
    ir_reason e = u "Script error: '" ++ col ++ u "'" /\
    (forall c, c ∈ mutated o -> c ∈ pre) /\
    (forall c, c ∈ col :: post -> row_after o !! c = row !! c).
Proof.
  intros (Hskip & Hres & Herr) Hdata Hcols Hpre Hcol.
  pose proof (site_data_keys p) as Hkeys. rewrite Hcols in Hkeys.
  apply fmap_app_inv in Hkeys as (ipre & rest & Hipre & Hrest & Hsd).
  symmetry in Hrest. apply fmap_cons_inv in Hrest as ([col' v] & ipost & Hc & Hipost & ->).
  simpl in Hc. subst col'.
  assert (Hpresent : Forall (fun item : str * str => is_Some (row !! item.1)) ipre).
  { unfold has_columns in Hpre. rewrite Hipre in Hpre.
    rewrite Forall_forall in Hpre. apply Forall_forall. intros item Hitem.
    apply Hpre. apply list_elem_of_fmap. exists item. auto. }
  destruct (update_loop_complete row ipre (row, []) Hpresent) as (r & Hloop & Hr).
  pose proof (update_loop_touched row ipre (row, [])) as Ht. rewrite Hloop in Ht.
  assert (Hmut : forall c, c ∈ r.2 -> c ∈ pre).
  { intros c Hc. rewrite Hr in Hc. simpl in Hc. rewrite Hipre.
    apply list_elem_of_fmap in Hc as (item & -> & Hitem).
    apply list_elem_of_fmap. exists item. split; [reflexivity|].
    apply list_elem_of_In in Hitem. apply filter_In in Hitem as [Hitem _].
    apply list_elem_of_In, Hitem. }
  unfold skipped1, site_result1, address1 in *. unfold Script.process_row.
  destruct (row !! u "HOUSE #") as [h|]; [|discriminate].
  destruct (row !! u "STREET NAME") as [s|]; [|discriminate].
  destruct (row !! u "ZIP CODE") as [z|]; [|discriminate].
  injection Hres as Hres. rewrite Hskip, Hres, Herr. cbv zeta. rewrite Hdata.
  rewrite Hsd, update_loop_app, Hloop. simpl Script.update_loop. rewrite Hcol.
  eexists. eexists. split; [reflexivity|]. cbn [appended mutated row_after ir_reason].
  split; [reflexivity|]. split.
  { change (u "Script error: '") with (u "Script error: " ++ u "'").
    rewrite <- app_assoc. reflexivity. }
  split; [exact Hmut|].
  intros c Hc. destruct (Ht c) as [[E _]|(Hin & _)]; [exact E|].
  exfalso. apply Hmut in Hin.
  pose proof OUTPUT_COLS_NoDup as Hnd. rewrite Hcols in Hnd.
  apply NoDup_app in Hnd as (_ & Hdisj & _). exact (Hdisj c Hin Hc).
Qed.

Lemma script1_missing_column_witness :
  exists o e,
    Script.process_row (sample_lookup sample_page) 7 no_ed_row = Some o /\
    appended o = [e] /\
    ir_reason e = u "Script error: '" ++ u "ED" ++ u "'" /\
    (forall c, c ∈ mutated o -> c ∈ [u "AD"]) /\
    (forall c, c ∈ u "ED" :: [u "Cong D"; u "SD"; u "Council D"; u "JD"] ->
       row_after o !! c = no_ed_row !! c).
Proof.
  apply (script1_missing_column (sample_lookup sample_page) 7 no_ed_row sample_page
           [u "AD"] (u "ED") [u "Cong D"; u "SD"; u "Council D"; u "JD"]).
  - repeat split; vm_compute; reflexivity.
  - vm_compute. reflexivity.
  - reflexivity.
  - repeat constructor. eexists. vm_compute. reflexivity.
  - vm_compute. reflexivity.
Defined.

(** X15: [script.py] compares up to leading zeros.  A cell whose text is
    the site's value without its leading zeros (and has no sign in front)
    counts as equal, so the field is not assigned. *)
Theorem script1_leading_zeros (row : Row) (field : str) (x : Cell) (k : nat) :
  row !! field = Some x ->
  notna x = true ->
  no_sign (py_str x) = true ->
  Script.excel_val x (replicate k 48 ++ py_str x) = replicate k 48 ++ py_str x /\
  mismatch1 row (field, replicate k 48 ++ py_str x) = false.
Proof.
  intros Hrow Hna Hsign.
  assert (E : Script.excel_val x (replicate k 48 ++ py_str x)
              = replicate k 48 ++ py_str x).
  { unfold Script.excel_val. rewrite Hna. unfold zfill.
    rewrite length_app, length_replicate.
    destruct (Nat.leb_spec (k + length (py_str x)) (length (py_str x))) as [L|L].
    - assert (k = 0%nat) as -> by lia. reflexivity.
    - replace (k + length (py_str x) - length (py_str x))%nat with k by lia.
      destruct (py_str x) as [|c s]; [rewrite app_nil_r; reflexivity|].
      simpl in Hsign. apply negb_true_iff in Hsign. rewrite Hsign. reflexivity. }
  split; [exact E|]. unfold mismatch1. cbn [fst snd]. rewrite Hrow, E.
  rewrite bool_decide_eq_true_2 by reflexivity. reflexivity.
Qed.

Lemma script1_leading_zeros_witness :
  sample_row !! u "AD" = Some (CStr (u "49")) /\
  Script.excel_val (CStr (u "49")) (u "0049") = u "0049" /\
  mismatch1 sample_row (u "AD", u "0049") = false.
Proof.
  assert (Hrow : sample_row !! u "AD" = Some (CStr (u "49")))
    by (vm_compute; reflexivity).
  split; [exact Hrow|].
  exact (script1_leading_zeros sample_row (u "AD") (CStr (u "49")) 2
           Hrow eq_refl eq_refl).
Defined.

Section BlankCells.
Context `{PyRuntime}.

Lemma blank2_cleaned x :
  blank2 x = true -> clean_house x = [] /\ clean_street x = [] /\ clean_zip x = [].
Proof.
  unfold blank2. intros Hb.
  pose proof (proj2 (strip_nil_iff (safe_text x)) Hb) as Hs.
  split; [|split].
  - unfold clean_house. rewrite Hs. reflexivity.
  - unfold clean_street. rewrite Hs. reflexivity.
  - unfold clean_zip. rewrite Hs. reflexivity.
Qed.

(** X16: blank address cells.  [script2.py] skips a row when one of its
    three address cells is absent, None, NaN or whitespace-only text;
    [script.py] skips exactly when one of them is whitespace-only text, so
    a None, NaN or integer cell is never a reason to skip there. *)
Theorem blank_address_cells (house_col street_col zip_col : str) (row : Row) :
  (blank2 (Script2.get row house_col) || blank2 (Script2.get row street_col)
   || blank2 (Script2.get row zip_col) = true ->
   skipped2 house_col street_col zip_col row = true) /\
  (forall x, x = CNone \/ x = CNaN \/ x = CStr [] -> blank2 x = true) /\
  match row !! u "HOUSE #", row !! u "STREET NAME", row !! u "ZIP CODE" with
  | Some h, Some s, Some z =>
      skipped1 row = blank1 h || blank1 s || blank1 z
  | _, _, _ => skipped1 row = false
  end.
Proof.
  split; [|split].
  - unfold skipped2, address2, missing_address. intros Hb.
    apply orb_true_iff in Hb as [Hb|Hb]; [apply orb_true_iff in Hb as [Hb|Hb]|];
      apply blank2_cleaned in Hb as (E1 & E2 & E3).
    + rewrite E1. reflexivity.
    + rewrite E2. apply orb_true_iff. left. apply orb_true_r.
    + rewrite E3. apply orb_true_r.
  - intros x [->|[->| ->]]; reflexivity.
  - assert (Hblank : forall x, bool_decide (strip (py_str x) = []) = blank1 x).
    { intros x. destruct (blank1 x) eqn:E.
      - apply bool_decide_eq_true. apply strip_nil_iff.
        destruct x; try discriminate; exact E.
      - apply bool_decide_eq_false. rewrite strip_nil_iff.
        destruct x; simpl in *; try congruence;
          try (rewrite str_of_Z_not_blank; discriminate); discriminate. }
    unfold skipped1, address1.
    destruct (row !! u "HOUSE #") as [h|]; [|reflexivity].
    destruct (row !! u "STREET NAME") as [s|]; [|reflexivity].
    destruct (row !! u "ZIP CODE") as [z|]; [|reflexivity].
    unfold missing_address. rewrite !Hblank. reflexivity.
Qed.
End BlankCells.

(** ** The frame after the loop *)

Lemma ensure_has_columns row : has_columns OUTPUT_COLS (Script2.ensure_output_cols row).
Proof.
  unfold Script2.ensure_output_cols.
  apply List.Forall_forall. intros col Hcol. rewrite ensure_fold_lookup.
  destruct (row !! col); [eauto|].
  rewrite bool_decide_eq_true_2 by (apply list_elem_of_In, Hcol). eauto.
Qed.

Lemma ensure_outside row col :
  col ∉ OUTPUT_COLS -> Script2.ensure_output_cols row !! col = row !! col.
Proof.
  intros Hcol. unfold Script2.ensure_output_cols. rewrite ensure_fold_lookup.
  destruct (row !! col); [reflexivity|].
  rewrite bool_decide_eq_false_2 by exact Hcol. reflexivity.
Qed.

Lemma stored_ok_keeps res row o cols :
  stored_ok res row o -> has_columns cols row -> has_columns cols (row_after o).
Proof.
  intros Hs Hc. eapply Forall_impl; [exact Hc|]. intros col Hcol. simpl in *.
  destruct (Hs col) as [[_ ->]|(_ & p & v & _ & _ & ->)]; eauto.
Qed.

(** X17: the two steps of [script2.py] on the frame, one after the other.
    When the row loop runs on a frame whose output columns were ensured,
    the frame afterwards has as many rows as before, every row has the six
    district columns, every cell outside those columns is as it was read,
    and at most as many invalid rows are recorded as there are rows. *)
Theorem ensured_frame_processed `{PyRuntime}
    (house_col street_col zip_col : str) (lookup : Lookup) (rows : list Row) :
  let frame := map Script2.ensure_output_cols rows in
  let res := Script2.process_rows house_col street_col zip_col lookup 0 frame [] in
  length res.1 = length rows /\
  Forall (has_columns OUTPUT_COLS) res.1 /\
  (forall i row row' col,
     rows !! i = Some row -> res.1 !! i = Some row' ->
     col ∉ OUTPUT_COLS -> row' !! col = row !! col) /\
  (length res.2 <= length rows)%nat.
Proof.
  intros frame res. subst res frame. rewrite process_rows_unfold. cbn [fst snd app].
  split; [rewrite length_imap, length_map; reflexivity|].
  split; [|split].
  - apply Forall_forall. intros row' Hrow'.
    apply elem_of_lookup_imap in Hrow' as (i & row1 & -> & Hrow1).
    eapply stored_ok_keeps; [apply process_row2_stored|].
    apply list_lookup_fmap_Some in Hrow1 as (row & -> & _).
    apply ensure_has_columns.
  - intros i row row' col Hrow Hrow' Hcol.
    rewrite list_lookup_imap in Hrow'.
    change (map Script2.ensure_output_cols rows)
      with (Script2.ensure_output_cols <$> rows) in Hrow'.
    rewrite list_lookup_fmap, Hrow in Hrow'. simpl in Hrow'.
    injection Hrow' as <-.
    rewrite (stored_ok_outside _ _ _ _ (process_row2_stored _ _ _ _ _ _) Hcol).
    apply ensure_outside, Hcol.
  - destruct (new_entries_ordered house_col street_col zip_col lookup
                (map Script2.ensure_output_cols rows) 0) as (Hlen & _).
    rewrite length_map in Hlen. exact Hlen.
Qed.
